(** * Cascading query resolution of the academic research copilot

    A shallow embedding of [src/knowledge_base/queries.py]: the plain,
    threshold-filtered and hybrid search operations with their three-tier
    fallback cascade, and the point lookup by identifier.

    Modelling conventions.
    - Python [float] values (distances, thresholds, relevance scores) are
      exact rationals [Q]; comparisons are up to [Qeq].  Not-a-number and
      rounding are outside the model.
    - Python [int] is [Z]; [str] is [string] (8-bit characters, so
      [lower] is the ASCII one).
    - A Python function body is a computation in the monad [M]: it threads
      the state of the outside world together with the log of backend
      calls, and it either returns a value or raises.  State changes made
      before a raise are kept, as in Python.
    - The two backends (the MindsDB knowledge base and the DuckDB store)
      are parameters: a query is sent as a structured value holding exactly
      the pieces the source interpolates into its SQL text.
    - [print] calls are not modelled. *)

From Stdlib Require Import String Ascii List ZArith QArith Lqa Lia Bool Sorted.
From Stdlib Require Import DecimalString.
Import ListNotations.
Local Open Scope string_scope.
Local Open Scope Z_scope.

(** ** Python string primitives *)

Module Str.

(** [c.lower()] on one ASCII character. *)
Definition lower_ascii (c : ascii) : ascii :=
  let n := nat_of_ascii c in
  if (Nat.leb 65 n && Nat.leb n 90)%bool then ascii_of_nat (n + 32) else c.

(** [s.lower()] *)
Fixpoint lower (s : string) : string :=
  match s with
  | EmptyString => EmptyString
  | String c r => String (lower_ascii c) (lower r)
  end.

(** [sub in s] *)
Fixpoint contains (sub s : string) : bool :=
  (String.prefix sub s ||
   match s with
   | EmptyString => false
   | String _ r => contains sub r
   end)%bool.

(** [s.startswith(p)] *)
Definition startswith (s p : string) : bool := String.prefix p s.

(** [s[:n]] for a non-negative literal [n] *)
Definition take (n : nat) (s : string) : string := String.substring 0 n s.

(** [s.replace("'", "''")], the quote doubling done before interpolation *)
Fixpoint sql_escape (s : string) : string :=
  match s with
  | EmptyString => EmptyString
  | String c r =>
      if Ascii.eqb c "'"%char then String c (String c (sql_escape r))
      else String c (sql_escape r)
  end.

(** [str(z)] / [f"{z}"] for an integer *)
Definition of_int (z : Z) : string := NilZero.string_of_int (Z.to_int z).

(** Truthiness of a string: only the empty string is falsy. *)
Definition truthy (s : string) : bool :=
  match s with EmptyString => false | String _ _ => true end.

End Str.

(** ** Python [int(s)] on a string, base 10 *)

Module PyInt.

(** Characters removed by the implicit strip of [int(...)]. *)
Definition is_space (c : ascii) : bool :=
  let n := nat_of_ascii c in
  ((Nat.leb 9 n && Nat.leb n 13) || (Nat.leb 28 n && Nat.leb n 32))%bool.

Definition digit_of (c : ascii) : option Z :=
  let n := nat_of_ascii c in
  if (Nat.leb 48 n && Nat.leb n 57)%bool then Some (Z.of_nat (n - 48)) else None.

Fixpoint lstrip (s : string) : string :=
  match s with
  | String c r => if is_space c then lstrip r else s
  | EmptyString => EmptyString
  end.

(** Drops trailing blanks: a blank is kept only when something that is kept
    follows it. *)
Fixpoint rstrip (s : string) : string :=
  match s with
  | EmptyString => EmptyString
  | String c r =>
      match rstrip r with
      | EmptyString => if is_space c then EmptyString else String c EmptyString
      | r' => String c r'
      end
  end.

(** Digits, where a single underscore may separate two digits.
    [acc] is the value read so far, [after_digit] tells whether the
    previous character was a digit. *)
Fixpoint digits (s : string) (acc : Z) (after_digit : bool) : option Z :=
  match s with
  | EmptyString => if after_digit then Some acc else None
  | String c r =>
      match digit_of c with
      | Some d => digits r (10 * acc + d) true
      | None =>
          if (Ascii.eqb c "_"%char && after_digit)%bool
          then digits r acc false
          else None
      end
  end.

(** [int(s)]: [None] stands for the [ValueError] the call raises. *)
Definition parse (s : string) : option Z :=
  match rstrip (lstrip s) with
  | String "+"%char r => digits r 0 false
  | String "-"%char r => option_map Z.opp (digits r 0 false)
  | t => digits t 0 false
  end.

End PyInt.

(** ** Relevance normalisation *)

Local Open Scope Q_scope.

Definition Qltb (a b : Q) : bool := negb (Qle_bool b a).

(** Python's two-argument [min(a, b)]: [b] replaces [a] only when [b < a]. *)
Definition py_min (a b : Q) : Q := if Qltb b a then b else a.

(** Python's two-argument [max(a, b)]: [b] replaces [a] only when [b > a]. *)
Definition py_max (a b : Q) : Q := if Qltb a b then b else a.

(** [max(0, min(1, 1 - (distance / 2)))] *)
Definition relevance_of_distance (distance : Q) : Q :=
  py_max 0 (py_min 1 (1 - distance / 2)).

(** The clamp of the specification, written from its words:
    below [lo] gives [lo], above [hi] gives [hi], otherwise the value. *)
Definition clamp (x lo hi : Q) : Q :=
  if Qltb x lo then lo else if Qltb hi x then hi else x.

(** [relevance_score] of the text-search fallback of plain search *)
Definition text_fallback_score : Q := 75 # 100.

(** [relevance_score] of the DuckDB fallback of hybrid search *)
Definition hybrid_fallback_score : Q := 85 # 100.

(** [0.95 - (i * 0.05)] *)
Definition sample_score (i : Z) : Q := (95 # 100) - inject_Z i * (5 # 100).

Local Close Scope Q_scope.

(** ** Data model *)

(** The value stored under ["published_date"] in a result dictionary:
    a string ([str(...)] of the backend value) or a [datetime.date]. *)
Inductive DateVal :=
| DStr (s : string)
| DDate (year month day : Z)
| DOther.

(** Truthiness of an optional date value ([None] and [''] are falsy). *)
Definition date_truthy (d : option DateVal) : bool :=
  match d with
  | None => false
  | Some (DStr s) => Str.truthy s
  | Some _ => true
  end.

(** A result dictionary.  [relevance_score] is optional because the point
    lookup builds dictionaries without that key. *)
Record Paper := mkPaper {
  entry_id : string;
  title : string;
  summary : string;
  authors : string;
  published_date : option DateVal;
  pdf_url : string;
  categories : string;
  relevance_score : option Q
}.

(** A row of the knowledge base.  A field read with [row.get(key, default)]
    is optional; [kb_published_date] is [None] when the key is missing or
    holds [None], and otherwise holds [str] of the value.  For the other
    optional fields [None] is a missing key (the default is read); a key
    that is present holds text, a key holding NULL is outside the model. *)
Record KBRow := mkKBRow {
  kb_entry_id : string;
  kb_title : string;
  kb_summary : string;
  kb_authors : option string;
  kb_published_date : option string;
  kb_pdf_url : option string;
  kb_categories : option string;
  kb_distance : option Q
}.

(** A row of the [papers] table of the DuckDB store. *)
Record DuckRow := mkDuckRow {
  d_entry_id : string;
  d_title : string;
  d_summary : string;
  d_authors : string;
  d_published_date : option string;
  d_pdf_url : string;
  d_categories : string
}.

(** [metadata_filters]: the three keys the source looks at, with values of
    the types the source's docstring gives them: text for [authors] and
    [categories], an integer for [year].  The HTTP layer admits any JSON
    value ([Dict[str, Any]]); dictionaries with values of other types are
    outside the model. *)
Record Filters := mkFilters {
  f_authors : option string;
  f_year : option Z;
  f_categories : option string
}.

(** [if metadata_filters:] holds for a dictionary with at least one key.
    Only the three keys above are ever read, so a dictionary holding none
    of them behaves like an empty one in every branch. *)
Definition active_filters (metadata_filters : option Filters) : option Filters :=
  match metadata_filters with
  | Some f =>
      match f_authors f, f_year f, f_categories f with
      | None, None, None => None
      | _, _, _ => Some f
      end
  | None => None
  end.

(** The query sent to the knowledge base:
    [SELECT ... FROM academic_kb WHERE content = '<content>'
     [AND relevance >= <floor>] LIMIT <limit>]. *)
Record KBQuery := mkKBQuery {
  kbq_content : string;
  kbq_floor : option Q;
  kbq_limit : Z
}.

(** The queries sent to DuckDB: the text search over title, summary and
    categories with its optional pushed-down predicates and its [LIMIT],
    and the lookup [WHERE entry_id = '<id>']. *)
Inductive DuckQuery :=
| DuckSearch (pattern : string) (author : option string) (year : option Z)
    (category : option string) (limit : Z)
| DuckById (id : string).

Definition duck_limit (q : DuckQuery) : option Z :=
  match q with
  | DuckSearch _ _ _ _ limit => Some limit
  | DuckById _ => None
  end.

Inductive Event :=
| CallKB (q : KBQuery)
| CallDuck (q : DuckQuery).

(** ** Exceptions and results *)

Inductive Exn :=
| BackendError (detail : string)
| ValueError (detail : string).

Inductive Res (A : Type) :=
| Ok (a : A)
| Raise (e : Exn).
Arguments Ok {A} a.
Arguments Raise {A} e.

Definition res_bind {A B} (r : Res A) (k : A -> Res B) : Res B :=
  match r with
  | Ok a => k a
  | Raise e => Raise e
  end.

(** A [for] loop that appends to a list, with [continue] ([Ok None]) and
    exceptions leaving the loop. *)
Fixpoint collect {R A} (body : R -> Res (option A)) (rows : list R) : Res (list A) :=
  match rows with
  | [] => Ok []
  | row :: rest =>
      res_bind (body row) (fun o =>
      res_bind (collect body rest) (fun acc =>
      Ok (match o with Some a => a :: acc | None => acc end)))
  end.

(** The two backends.  One call covers connecting, executing and fetching;
    it may change the world and may raise. *)
Record Backend := mkBackend {
  World : Type;
  kb_exec : KBQuery -> World -> Res (list KBRow) * World;
  duck_exec : DuckQuery -> World -> Res (list DuckRow) * World
}.

Record St (B : Backend) := mkSt {
  world : World B;
  log : list Event
}.
Arguments mkSt {B} & world log.
Arguments world {B} s.
Arguments log {B} s.

Definition M (B : Backend) (A : Type) : Type := St B -> Res A * St B.

Definition ret {B A} (a : A) : M B A := fun s => (Ok a, s).

Definition bind {B A C} (m : M B A) (k : A -> M B C) : M B C :=
  fun s =>
    match m s with
    | (Ok a, s') => k a s'
    | (Raise e, s') => (Raise e, s')
    end.

Definition lift {B A} (r : Res A) : M B A := fun s => (r, s).

(** [try: body  except Exception as e: handler(e)] *)
Definition try_except {B A} (body : M B A) (handler : Exn -> M B A) : M B A :=
  fun s =>
    match body s with
    | (Ok a, s') => (Ok a, s')
    | (Raise e, s') => handler e s'
    end.

Declare Scope py_scope.
Delimit Scope py_scope with py.
Notation "x <- m ;; k" := (bind m (fun x => k))
  (at level 100, m at next level, right associativity) : py_scope.
Local Open Scope py_scope.

(** [server.query(sql).fetch()] after [get_mindsdb_connection()] *)
Definition kb_fetch {B} (q : KBQuery) : M B (list KBRow) :=
  fun s =>
    let (r, w) := kb_exec B q (world s) in
    (r, mkSt w (log s ++ [CallKB q])).

(** [duckdb.connect(...)], [conn.execute(sql).fetchdf()], [conn.close()] *)
Definition duck_fetch {B} (q : DuckQuery) : M B (list DuckRow) :=
  fun s =>
    let (r, w) := duck_exec B q (world s) in
    (r, mkSt w (log s ++ [CallDuck q])).

Definition start (B : Backend) (w : World B) : St B := mkSt w [].
Arguments start B & w.

(** What a caller and an observer of the backends see of a run: the
    result and the backend calls made, in order. *)
Definition outcome {B A} (r : Res A * St B) : Res A * list Event :=
  (fst r, log (snd r)).

(** ** Row conversion *)

Definition or_empty (o : option string) : string :=
  match o with Some s => s | None => EmptyString end.

(** [str(row['published_date']) if row.get('published_date') else None] *)
Definition date_field (o : option string) : option DateVal :=
  match o with
  | Some s => if Str.truthy s then Some (DStr s) else None
  | None => None
  end.

(** [row.get('distance', 1.0)] *)
Definition distance_of (row : KBRow) : Q :=
  match kb_distance row with Some d => d | None => 1%Q end.

Definition paper_of_kb (row : KBRow) (relevance : Q) : Paper :=
  {| entry_id := kb_entry_id row;
     title := kb_title row;
     summary := kb_summary row;
     authors := or_empty (kb_authors row);
     published_date := date_field (kb_published_date row);
     pdf_url := or_empty (kb_pdf_url row);
     categories := or_empty (kb_categories row);
     relevance_score := Some relevance |}.

Definition paper_of_duck (row : DuckRow) (score : option Q) : Paper :=
  {| entry_id := d_entry_id row;
     title := d_title row;
     summary := d_summary row;
     authors := d_authors row;
     published_date := date_field (d_published_date row);
     pdf_url := d_pdf_url row;
     categories := d_categories row;
     relevance_score := score |}.

(** [range(lo, hi)] *)
Definition py_range (lo hi : Z) : list Z :=
  map (fun k => lo + Z.of_nat k) (seq 0 (Z.to_nat (hi - lo))).

(** One element of the sample data list of [_query_papers_sync]. *)
Definition sample_paper (query : string) (i : Z) : Paper :=
  {| entry_id := "arxiv-sample-" ++ Str.of_int i;
     title := "Sample Paper " ++ Str.of_int i ++ ": " ++ query;
     summary := "This is a sample summary for paper " ++ Str.of_int i
                ++ " related to " ++ query ++ ". "
                ++ "In a production environment, this would be real paper data from ArXiv.";
     authors := "John Doe, Jane Smith";
     published_date := Some (DStr "2024-01-01");
     pdf_url := "https://arxiv.org/pdf/sample" ++ Str.of_int i ++ ".pdf";
     categories := "cs.LG, cs.AI";
     relevance_score := Some (sample_score i) |}.

(** The list comprehension over [range(1, min(limit + 1, 6))]. *)
Definition sample_data (query : string) (limit : Z) : list Paper :=
  map (sample_paper query) (py_range 1 (Z.min (limit + 1) 6)).

(** One iteration of the conversion loop of the first tier: the distance
    becomes a relevance and the dictionary is built. *)
Definition normalise_row (row : KBRow) : Paper :=
  paper_of_kb row (relevance_of_distance (distance_of row)).

(** ** The queries the operations send *)

Definition plain_kb_query (query : string) (limit : Z) : KBQuery :=
  mkKBQuery (Str.sql_escape query) None limit.

Definition plain_duck_query (query : string) (limit : Z) : DuckQuery :=
  DuckSearch (Str.sql_escape query) None None None limit.

Definition semantic_kb_query (query : string) (threshold : Q) : KBQuery :=
  mkKBQuery (Str.sql_escape query) (Some threshold) 50.

Definition hybrid_kb_query (query : string) : KBQuery :=
  mkKBQuery (Str.sql_escape query) None 50.

Definition lookup_query (entry_id : string) : DuckQuery :=
  DuckById (Str.sql_escape entry_id).

(** ** The operations of [queries.py] *)

Section Engine.

Variable B : Backend.

(** *** [_query_papers_sync] *)

(** The [try] body: semantic search in the knowledge base. *)
Definition plain_primary (query : string) (limit : Z) : M B (list Paper) :=
  rows <- kb_fetch (plain_kb_query query limit) ;;
  ret (map normalise_row rows).

(** The inner [try] body: text search in DuckDB. *)
Definition plain_secondary (query : string) (limit : Z) : M B (list Paper) :=
  rows <- duck_fetch (plain_duck_query query limit) ;;
  ret (map (fun row => paper_of_duck row (Some text_fallback_score)) rows).

Definition _query_papers_sync (query : string) (limit : Z) : M B (list Paper) :=
  try_except (plain_primary query limit) (fun _ =>
  try_except (plain_secondary query limit) (fun _ =>
  ret (sample_data query limit))).

(** *** [_semantic_search_sync] *)

(** The loop body: [if relevance >= threshold: papers.append(paper)]. *)
Definition semantic_row (threshold : Q) (row : KBRow) : option Paper :=
  let relevance := relevance_of_distance (distance_of row) in
  if Qle_bool threshold relevance then Some (paper_of_kb row relevance) else None.

Fixpoint filter_map {R A} (f : R -> option A) (l : list R) : list A :=
  match l with
  | [] => []
  | x :: r => match f x with Some a => a :: filter_map f r | None => filter_map f r end
  end.

Definition semantic_primary (query : string) (threshold : Q) : M B (list Paper) :=
  rows <- kb_fetch (semantic_kb_query query threshold) ;;
  ret (filter_map (semantic_row threshold) rows).

(** [r.get("relevance_score", 0)] *)
Definition score_or_zero (r : Paper) : Q :=
  match relevance_score r with Some x => x | None => 0%Q end.

Definition _semantic_search_sync (query : string) (threshold : Q) : M B (list Paper) :=
  try_except (semantic_primary query threshold) (fun _ =>
  results <- _query_papers_sync query 50 ;;
  ret (filter (fun r => Qle_bool threshold (score_or_zero r)) results)).

(** *** [_hybrid_search_sync] *)

(** [filter.lower() not in str(value).lower()] gives [continue]; the
    function answers whether the row is kept. *)
Definition substring_ok (flt : option string) (value : string) : bool :=
  match flt with
  | Some x => Str.contains (Str.lower x) (Str.lower value)
  | None => true
  end.

(** [int(s[:4])].  The text of the [ValueError] shows the literal between
    single quotes, as [repr] prints a text without quotes, backslashes or
    control characters. *)
Definition year_prefix (s : string) : Res Z :=
  match PyInt.parse (Str.take 4 s) with
  | Some y => Ok y
  | None =>
      Raise (ValueError ("invalid literal for int() with base 10: '"
                         ++ Str.take 4 s ++ "'"))
  end.

(** The year test of the first tier, on the raw row: answers whether the
    row is kept, or raises when the year cannot be read. *)
Definition kb_year_ok (year_filter : option Z) (row : KBRow) : Res bool :=
  match year_filter with
  | Some yf =>
      match kb_published_date row with
      | Some s =>
          if Str.truthy s then
            res_bind (if Str.truthy s then year_prefix s else Ok 0) (fun year =>
            Ok (negb (year <? yf)))
          else Ok true
      | None => Ok true
      end
  | None => Ok true
  end.

(** The loop body of the first tier of hybrid search. *)
Definition hybrid_row (metadata_filters : option Filters) (row : KBRow)
  : Res (option Paper) :=
  let relevance := relevance_of_distance (distance_of row) in
  match active_filters metadata_filters with
  | Some f =>
      if substring_ok (f_authors f) (or_empty (kb_authors row)) then
        res_bind (kb_year_ok (f_year f) row) (fun year_ok =>
        if year_ok then
          if substring_ok (f_categories f) (or_empty (kb_categories row))
          then Ok (Some (paper_of_kb row relevance))
          else Ok None
        else Ok None)
      else Ok None
  | None => Ok (Some (paper_of_kb row relevance))
  end.

Definition hybrid_primary (query : string) (metadata_filters : option Filters)
  : M B (list Paper) :=
  rows <- kb_fetch (hybrid_kb_query query) ;;
  lift (collect (hybrid_row metadata_filters) rows).

(** The DuckDB query of the second tier, with the filters pushed down. *)
Definition hybrid_duck_query (query : string) (metadata_filters : option Filters)
  : DuckQuery :=
  match active_filters metadata_filters with
  | Some f =>
      DuckSearch (Str.sql_escape query)
        (option_map Str.sql_escape (f_authors f))
        (f_year f)
        (option_map Str.sql_escape (f_categories f))
        50
  | None => DuckSearch (Str.sql_escape query) None None None 50
  end.

Definition hybrid_secondary (query : string) (metadata_filters : option Filters)
  : M B (list Paper) :=
  rows <- duck_fetch (hybrid_duck_query query metadata_filters) ;;
  ret (map (fun row => paper_of_duck row (Some hybrid_fallback_score)) rows).

(** The year of a result dictionary's date, by the [isinstance] cascade. *)
Definition pub_year_of (d : option DateVal) : Res Z :=
  match d with
  | Some (DStr s) => year_prefix s
  | Some (DDate y _ _) => Ok y
  | _ => Ok 2024
  end.

(** The loop body of the last fallback: computes [match] and appends the
    result when it is still true. *)
Definition post_filter (f : Filters) (result : Paper) : Res (option Paper) :=
  let match_authors := substring_ok (f_authors f) (authors result) in
  res_bind
    (match f_year f with
     | Some year_filter =>
         if match_authors then
           if date_truthy (published_date result) then
             res_bind (pub_year_of (published_date result)) (fun pub_year =>
             Ok (negb (pub_year <? year_filter)))
           else Ok true
         else Ok false
     | None => Ok match_authors
     end)
    (fun matched => Ok (if matched then Some result else None)).

Definition hybrid_tertiary (query : string) (metadata_filters : option Filters)
  : M B (list Paper) :=
  results <- _query_papers_sync query 50 ;;
  match active_filters metadata_filters with
  | Some f => lift (collect (post_filter f) results)
  | None => ret results
  end.

Definition _hybrid_search_sync (query : string) (metadata_filters : option Filters)
  : M B (list Paper) :=
  try_except (hybrid_primary query metadata_filters) (fun _ =>
  try_except (hybrid_secondary query metadata_filters) (fun _ =>
  hybrid_tertiary query metadata_filters)).

(** *** [_get_paper_by_id_sync] *)

(** The fallback dictionary built for an identifier. *)
Definition sample_for_id (entry_id : string) : Paper :=
  {| entry_id := entry_id;
     title := "Sample Paper for " ++ entry_id;
     summary := "This is a detailed summary of the paper.";
     authors := "John Doe, Jane Smith";
     published_date := Some (DDate 2024 1 1);
     pdf_url := "https://arxiv.org/pdf/" ++ entry_id ++ ".pdf";
     categories := "cs.LG, cs.AI";
     relevance_score := None |}.

Definition lookup_store (entry_id : string) : M B (option Paper) :=
  rows <- duck_fetch (lookup_query entry_id) ;;
  ret (match rows with
       | row :: _ => Some (paper_of_duck row None)
       | [] => None
       end).

Definition _get_paper_by_id_sync (entry_id : string) : M B (option Paper) :=
  try_except (lookup_store entry_id) (fun _ =>
  if Str.startswith entry_id "arxiv-"
  then ret (Some (sample_for_id entry_id))
  else ret None).

End Engine.

Arguments _query_papers_sync B query limit : clear implicits.
Arguments _semantic_search_sync B query threshold : clear implicits.
Arguments _hybrid_search_sync B query metadata_filters : clear implicits.
Arguments _get_paper_by_id_sync B entry_id : clear implicits.

(** ** The public wrappers of [queries.py]

    The [async] functions hand the synchronous implementation to the
    default executor and await it; the hop to the executor is not
    modelled, so each wrapper is its implementation.  Default arguments
    ([limit=10], [threshold=0.7], [metadata_filters=None]) are passed
    explicitly. *)

Definition query_academic_papers (B : Backend) (query : string) (limit : Z)
  : M B (list Paper) := _query_papers_sync B query limit.

Definition semantic_search (B : Backend) (query : string) (threshold : Q)
  : M B (list Paper) := _semantic_search_sync B query threshold.

Definition hybrid_search (B : Backend) (query : string)
  (metadata_filters : option Filters) : M B (list Paper) :=
  _hybrid_search_sync B query metadata_filters.

Definition get_paper_by_id (B : Backend) (entry_id : string)
  : M B (option Paper) := _get_paper_by_id_sync B entry_id.

(** The legacy synchronous wrapper. *)
Definition query_knowledge_base (B : Backend) (query : string) (limit : Z)
  : M B (list Paper) := _query_papers_sync B query limit.

(** ** Reading an SQL string literal

    These two functions are not in the source: they say how an SQL engine
    reads the text between the quotes of ['...'], and are what the quote
    doubling of [Str.sql_escape] is measured against. *)

(** The text a literal denotes: each doubled quote stands for one quote. *)
Fixpoint sql_unescape (s : string) : string :=
  match s with
  | String c (String c' r as t) =>
      if (Ascii.eqb c "'"%char && Ascii.eqb c' "'"%char)%bool
      then String c (sql_unescape r)
      else String c (sql_unescape t)
  | _ => s
  end.

(** No quote stands alone, so the text cannot close the literal. *)
Fixpoint quotes_paired (s : string) : bool :=
  match s with
  | EmptyString => true
  | String c r =>
      if Ascii.eqb c "'"%char then
        match r with
        | String c' r' => (Ascii.eqb c' "'"%char && quotes_paired r')%bool
        | EmptyString => false
        end
      else quotes_paired r
  end.




(** ** Vocabulary for statements about runs *)

(** [evs] are the backend calls a run made, in order, from state [s]. *)
Definition calls_since {B A} (s : St B) (r : Res A * St B) (evs : list Event) : Prop :=
  log (snd r) = (log s ++ evs)%list.

(** The dictionary carries a relevance score and it lies in [[0,1]]. *)
Definition unit_score (p : Paper) : Prop :=
  exists x, relevance_score p = Some x /\ (0 <= x)%Q /\ (x <= 1)%Q.

(** The date is absent (falsy), or its year is read and is at least [yf]. *)
Definition passes_year (yf : Z) (d : option DateVal) : Prop :=
  date_truthy d = false \/ exists y, pub_year_of d = Ok y /\ yf <= y.

Definition quote_count (s : string) : nat :=
  length (filter (fun c => Ascii.eqb c "'"%char) (list_ascii_of_string s)).


(** ** The HTTP layer ([api/routes.py])

    An endpoint body is a computation that, besides the exceptions of the
    query layer, may raise [HTTPException].  The pydantic request models
    are the records below (their [Field] bounds are checked by the
    framework before an endpoint runs, so they appear as hypotheses where
    a property needs them).  Building a [PaperResponse] validates
    [published_date] against [Optional[date]]; that coercion is pydantic's
    and is a parameter here: it returns the date, or the text of the
    [ValidationError], which is a [ValueError]. *)

(** [s.strip()] *)
Definition py_strip (s : string) : string := PyInt.rstrip (PyInt.lstrip s).

(** [not s or not s.strip()] *)
Definition blank (s : string) : bool :=
  (negb (Str.truthy s) || negb (Str.truthy (py_strip s)))%bool.

(** [l[:n]] *)
Definition slice_upto {A} (n : Z) (l : list A) : list A :=
  if 0 <=? n then firstn (Z.to_nat n) l
  else firstn (Z.to_nat (Z.of_nat (length l) + n)) l.

(** [[f(x) for x in l]] where [f] may raise *)
Fixpoint traverse {A C} (f : A -> Res C) (l : list A) : Res (list C) :=
  match l with
  | [] => Ok []
  | x :: r =>
      res_bind (f x) (fun y =>
      res_bind (traverse f r) (fun ys => Ok (y :: ys)))
  end.

Record PyDate := mkPyDate { date_year : Z; date_month : Z; date_day : Z }.

Record SearchRequest := mkSearchRequest {
  rq_query : string;
  rq_limit : Z
}.

Record SemanticSearchRequest := mkSemanticSearchRequest {
  sq_query : string;
  sq_threshold : Q
}.

Record HybridSearchRequest := mkHybridSearchRequest {
  hq_query : string;
  hq_metadata_filters : option Filters;
  hq_limit : Z
}.

Record PaperResponse := mkPaperResponse {
  pr_entry_id : string;
  pr_title : string;
  pr_summary : string;
  pr_authors : string;
  pr_published_date : option PyDate;
  pr_pdf_url : option string;
  pr_relevance_score : option Q
}.

Record SearchResponse := mkSearchResponse {
  sr_query : string;
  sr_results : list PaperResponse;
  sr_total_results : Z
}.

Inductive ApiExn :=
| HTTPException (status_code : Z) (detail : string)
| Unhandled (e : Exn).

Inductive ApiRes (A : Type) :=
| Sent (a : A)
| Failed (e : ApiExn).
Arguments Sent {A} a.
Arguments Failed {A} e.

Definition Api (B : Backend) (A : Type) : Type := St B -> ApiRes A * St B.

(** [str(e)] *)
Definition exn_str (e : Exn) : string :=
  match e with
  | BackendError detail => detail
  | ValueError detail => detail
  end.

Section Routes.

Variable B : Backend.
Variable coerce_date : DateVal -> string + PyDate.

Definition api_ret {A} (a : A) : Api B A := fun s => (Sent a, s).

Definition api_raise {A} (e : ApiExn) : Api B A := fun s => (Failed e, s).

Definition api_bind {A C} (m : Api B A) (k : A -> Api B C) : Api B C :=
  fun s =>
    match m s with
    | (Sent a, s') => k a s'
    | (Failed e, s') => (Failed e, s')
    end.

(** [await f(...)] for a function of the query layer *)
Definition await {A} (m : M B A) : Api B A :=
  fun s =>
    match m s with
    | (Ok a, s') => (Sent a, s')
    | (Raise e, s') => (Failed (Unhandled e), s')
    end.

(** A pure computation that may raise *)
Definition api_pure {A} (r : Res A) : Api B A :=
  fun s =>
    match r with
    | Ok a => (Sent a, s)
    | Raise e => (Failed (Unhandled e), s)
    end.

(** The three [except] clauses every endpoint ends with:
    [HTTPException] is re-raised, [ValueError] becomes a 400 and any other
    exception a 500. *)
Definition endpoint {A} (invalid failed : string) (body : Api B A) : Api B A :=
  fun s =>
    match body s with
    | (Sent a, s') => (Sent a, s')
    | (Failed (HTTPException status_code detail), s') =>
        (Failed (HTTPException status_code detail), s')
    | (Failed (Unhandled (ValueError d)), s') =>
        (Failed (HTTPException 400 (invalid ++ exn_str (ValueError d))), s')
    | (Failed (Unhandled e), s') =>
        (Failed (HTTPException 500 (failed ++ exn_str e)), s')
    end.

(** [PaperResponse(entry_id=paper.get("entry_id", ""), ...)];
    [score] is [paper.get("relevance_score")] or the field's default. *)
Definition paper_response (score : Paper -> option Q) (paper : Paper)
  : Res PaperResponse :=
  let build date :=
    {| pr_entry_id := entry_id paper;
       pr_title := title paper;
       pr_summary := summary paper;
       pr_authors := authors paper;
       pr_published_date := date;
       pr_pdf_url := Some (pdf_url paper);
       pr_relevance_score := score paper |} in
  match published_date paper with
  | None => Ok (build None)
  | Some d =>
      match coerce_date d with
      | inr date => Ok (build (Some date))
      | inl msg => Raise (ValueError msg)
      end
  end.

Definition search_response (text : string) (results : list Paper)
  : Api B SearchResponse :=
  api_bind (api_pure (traverse (paper_response relevance_score) results))
    (fun papers =>
  api_ret {| sr_query := text;
             sr_results := papers;
             sr_total_results := Z.of_nat (length papers) |}).

Definition search_papers (request : SearchRequest) : Api B SearchResponse :=
  endpoint "Invalid input: " "Search failed: "
    (if blank (rq_query request)
     then api_raise (HTTPException 400 "Query cannot be empty")
     else
       api_bind (await (query_academic_papers B (rq_query request) (rq_limit request)))
         (fun results => search_response (rq_query request) results)).

Definition semantic_search_papers (request : SemanticSearchRequest)
  : Api B SearchResponse :=
  endpoint "Invalid input: " "Semantic search failed: "
    (if blank (sq_query request)
     then api_raise (HTTPException 400 "Query cannot be empty")
     else if negb (Qle_bool 0 (sq_threshold request)
                   && Qle_bool (sq_threshold request) 1)
     then api_raise (HTTPException 400 "Threshold must be between 0.0 and 1.0")
     else
       api_bind (await (semantic_search B (sq_query request) (sq_threshold request)))
         (fun results => search_response (sq_query request) results)).

Definition hybrid_search_papers (request : HybridSearchRequest)
  : Api B SearchResponse :=
  endpoint "Invalid input: " "Hybrid search failed: "
    (if blank (hq_query request)
     then api_raise (HTTPException 400 "Query cannot be empty")
     else
       api_bind (await (hybrid_search B (hq_query request)
                          (hq_metadata_filters request)))
         (fun results =>
            search_response (hq_query request)
              (slice_upto (hq_limit request) results))).

Definition get_paper_by_id_endpoint (entry_id : string) : Api B PaperResponse :=
  endpoint "Invalid entry ID: " "Failed to retrieve paper: "
    (if blank entry_id
     then api_raise (HTTPException 400 "Entry ID cannot be empty")
     else
       api_bind (await (get_paper_by_id B (py_strip entry_id)))
         (fun paper =>
            match paper with
            | None =>
                api_raise (HTTPException 404
                             ("Paper with ID '" ++ entry_id ++ "' not found"))
            | Some p => api_pure (paper_response (fun _ => None) p)
            end)).

End Routes.

(** ** The exception classes ([utils/exceptions.py])

    One constructor per class, holding the arguments of its [__init__]. *)

Inductive CopilotError :=
| AcademicCopilotException (message : string) (details : option string)
| MindsDBConnectionError (url : string) (details : option string)
| KnowledgeBaseError (kb_name operation : string) (details : option string)
| DatabaseConnectionError (db_name db_type : string) (details : option string)
| QueryError (query_type : string) (details : option string)
| ValidationError (field value reason : string)
| PaperNotFoundError (entry_id : string)
| EmbeddingError (model : string) (details : option string)
| APIKeyError (service : string) (details : option string)
| DataIngestionError (source : string) (details : option string).

(** [self.message], as each [__init__] builds it *)
Definition exc_message (e : CopilotError) : string :=
  match e with
  | AcademicCopilotException message _ => message
  | MindsDBConnectionError url _ => "Failed to connect to MindsDB at " ++ url
  | KnowledgeBaseError kb_name operation _ =>
      "Knowledge Base '" ++ kb_name ++ "' " ++ operation ++ " failed"
  | DatabaseConnectionError db_name db_type _ =>
      db_type ++ " database '" ++ db_name ++ "' connection failed"
  | QueryError query_type _ => query_type ++ " query failed"
  | ValidationError field _ _ => "Invalid " ++ field
  | PaperNotFoundError entry_id => "Paper with ID '" ++ entry_id ++ "' not found"
  | EmbeddingError model _ => "Embedding generation with " ++ model ++ " failed"
  | APIKeyError service _ => service ++ " API key error"
  | DataIngestionError source _ => "Failed to ingest papers from " ++ source
  end.

(** [self.details] ([value] is already its [str]) *)
Definition exc_details (e : CopilotError) : option string :=
  match e with
  | AcademicCopilotException _ details
  | MindsDBConnectionError _ details
  | KnowledgeBaseError _ _ details
  | DatabaseConnectionError _ _ details
  | QueryError _ details
  | EmbeddingError _ details
  | APIKeyError _ details
  | DataIngestionError _ details => details
  | ValidationError _ value reason =>
      Some ("Value '" ++ value ++ "' is invalid: " ++ reason)
  | PaperNotFoundError _ => None
  end.

(** [__str__] *)
Definition exc_str (e : CopilotError) : string :=
  match exc_details e with
  | Some d => if Str.truthy d then exc_message e ++ ": " ++ d else exc_message e
  | None => exc_message e
  end.


(** The response entry shows the dictionary's identifier, texts and URL. *)
Definition mirrors (p : Paper) (r : PaperResponse) : Prop :=
  pr_entry_id r = entry_id p /\ pr_title r = title p /\
  pr_summary r = summary p /\ pr_authors r = authors p /\
  pr_pdf_url r = Some (pdf_url p).

(** The string consists of white space only (the empty string included). *)
Definition all_space (s : string) : bool :=
  forallb PyInt.is_space (list_ascii_of_string s).


(** A stand-in for pydantic's coercion, used in concrete runs only: a
    [date] passes, a string passes when it starts with [YYYY-MM-DD]. *)
Definition demo_coerce_date (d : DateVal) : string + PyDate :=
  match d with
  | DDate y m dd => inr (mkPyDate y m dd)
  | DStr s =>
      match PyInt.parse (String.substring 0 4 s),
            PyInt.parse (String.substring 5 2 s),
            PyInt.parse (String.substring 8 2 s) with
      | Some y, Some m, Some dd => inr (mkPyDate y m dd)
      | _, _, _ => inl ("Input should be a valid date: " ++ s)
      end
  | DOther => inl "Input should be a valid date"
  end.


(** ** Contracts and concrete backends *)

(** A backend honours [LIMIT n] when no answer is longer than [n]. *)
Definition honours_limit (B : Backend) : Prop :=
  (forall q w rows w',
      kb_exec B q w = (Ok rows, w') ->
      (length rows <= Z.to_nat (kbq_limit q))%nat) /\
  (forall q n w rows w',
      duck_exec B q w = (Ok rows, w') -> duck_limit q = Some n ->
      (length rows <= Z.to_nat n)%nat).

Module Scenario.

Definition unreachable : Exn := BackendError "connection refused".

(** Both backends are unreachable. *)
Definition all_down : Backend :=
  {| World := unit;
     kb_exec := fun _ w => (Raise unreachable, w);
     duck_exec := fun _ w => (Raise unreachable, w) |}.

(** The knowledge base answers with the first [LIMIT] rows of [rows];
    DuckDB is unreachable. *)
Definition kb_only (rows : list KBRow) : Backend :=
  {| World := unit;
     kb_exec := fun q w => (Ok (firstn (Z.to_nat (kbq_limit q)) rows), w);
     duck_exec := fun _ w => (Raise unreachable, w) |}.

(** The knowledge base is unreachable; DuckDB answers a search with the
    first [LIMIT] rows of [rows] and a lookup with the rows of that id. *)
Definition duck_only (rows : list DuckRow) : Backend :=
  {| World := unit;
     kb_exec := fun _ w => (Raise unreachable, w);
     duck_exec := fun q w =>
       match q with
       | DuckSearch _ _ _ _ limit => (Ok (firstn (Z.to_nat limit) rows), w)
       | DuckById id =>
           (Ok (filter (fun r => String.eqb (Str.sql_escape (d_entry_id r)) id) rows), w)
       end |}.

Definition kb_row (id : string) (date : option string) (distance : Q) : KBRow :=
  {| kb_entry_id := id;
     kb_title := "Attention Is All You Need";
     kb_summary := "The Transformer architecture.";
     kb_authors := Some "Ashish Vaswani, Noam Shazeer";
     kb_published_date := date;
     kb_pdf_url := Some "https://arxiv.org/pdf/1706.03762";
     kb_categories := Some "cs.CL, cs.LG";
     kb_distance := Some distance |}.

Definition duck_row (id : string) : DuckRow :=
  {| d_entry_id := id;
     d_title := "Deep Residual Learning";
     d_summary := "Residual networks.";
     d_authors := "Kaiming He";
     d_published_date := Some "2015-12-10";
     d_pdf_url := "https://arxiv.org/pdf/1512.03385";
     d_categories := "cs.CV" |}.

Definition year_2020 : Filters :=
  {| f_authors := None; f_year := Some 2020; f_categories := None |}.

Definition physics_only : Filters :=
  {| f_authors := None; f_year := None; f_categories := Some "physics" |}.

(** A row with no publication date, and one whose date does not start
    with a year. *)
Definition undated : KBRow := kb_row "1706.03762" None (2 # 5).
Definition odd_date : KBRow := kb_row "1706.03762" (Some "n.d.") (2 # 5).
Definition dated_2017 : KBRow := kb_row "1706.03762" (Some "2017-06-12") (2 # 5).

(** The knowledge base fails on its first call and answers with the first
    [LIMIT] rows of [rows] from then on (the world counts its calls);
    DuckDB is unreachable. *)
Definition flaky_kb (rows : list KBRow) : Backend :=
  {| World := nat;
     kb_exec := fun q calls =>
       match calls with
       | O => (Raise unreachable, 1%nat)
       | S _ => (Ok (firstn (Z.to_nat (kbq_limit q)) rows), S calls)
       end;
     duck_exec := fun _ calls => (Raise unreachable, calls) |}.

End Scenario.

(** DuckDB fails on its first call and answers from [rows] from then on
    (the world counts its calls); the knowledge base is unreachable. *)
Definition flaky_store (rows : list DuckRow) : Backend :=
  {| World := nat;
     kb_exec := fun _ calls => (Raise Scenario.unreachable, calls);
     duck_exec := fun q calls =>
       match calls with
       | O => (Raise Scenario.unreachable, 1%nat)
       | S _ =>
           (match q with
            | DuckSearch _ _ _ _ limit => Ok (firstn (Z.to_nat limit) rows)
            | DuckById id =>
                Ok (filter (fun r => String.eqb (Str.sql_escape (d_entry_id r)) id)
                           rows)
            end, S calls)
       end |}.


(** * Properties *)

(** ** The primitives on concrete inputs *)

Example parse_year : PyInt.parse (Str.take 4 "2017-06-12") = Some 2017.
Proof. reflexivity. Qed.

Example parse_blank_padded : PyInt.parse " 42 " = Some 42.
Proof. reflexivity. Qed.

Example parse_underscore : PyInt.parse "1_000" = Some 1000.
Proof. reflexivity. Qed.

Example parse_rejects_text : PyInt.parse (Str.take 4 "n.d.") = None.
Proof. reflexivity. Qed.

Example parse_rejects_empty : PyInt.parse EmptyString = None.
Proof. reflexivity. Qed.

Example lower_mixed : Str.lower "cs.AI, Math" = "cs.ai, math".
Proof. reflexivity. Qed.

Example contains_inside : Str.contains "smith" (Str.lower "Alice Smith") = true.
Proof. reflexivity. Qed.

Example contains_missing : Str.contains "smith" (Str.lower "Bob Lee") = false.
Proof. reflexivity. Qed.

Example escape_quote : Str.sql_escape "O'Neil" = "O''Neil".
Proof. reflexivity. Qed.

Example range_of_limit_3 : py_range 1 (Z.min (3 + 1) 6) = [1; 2; 3].
Proof. reflexivity. Qed.

Example range_of_limit_0 : py_range 1 (Z.min (0 + 1) 6) = [].
Proof. reflexivity. Qed.

Example relevance_midway : (relevance_of_distance (1 # 2) == 3 # 4)%Q.
Proof. reflexivity. Qed.

Example relevance_negative_distance : relevance_of_distance (- (1)) = 1%Q.
Proof. reflexivity. Qed.

Example sample_ids :
  map entry_id (sample_data "anything" 2) = ["arxiv-sample-1"; "arxiv-sample-2"].
Proof. reflexivity. Qed.

(** ** Relevance normalisation *)

Section Normalisation.

Local Open Scope Q_scope.

Lemma Qltb_true (a b : Q) : Qltb a b = true <-> a < b.
Proof.
  unfold Qltb. rewrite negb_true_iff.
  split; intro H.
  - apply Qnot_le_lt. intro L. apply Qle_bool_iff in L. congruence.
  - destruct (Qle_bool b a) eqn:E; [|reflexivity].
    apply Qle_bool_iff in E. lra.
Qed.

Lemma Qltb_false (a b : Q) : Qltb a b = false <-> b <= a.
Proof.
  unfold Qltb. rewrite negb_false_iff. apply Qle_bool_iff.
Qed.

(** Case analysis on a [Qltb] test, leaving the order fact in the context. *)
Ltac case_Qltb a b :=
  let E := fresh "E" in
  destruct (Qltb a b) eqn:E;
  [apply Qltb_true in E | apply Qltb_false in E].

Lemma half_linear (d : Q) : d / 2 == d * (1 # 2).
Proof. unfold Qdiv. reflexivity. Qed.

(** Names [d / 2] so that linear arithmetic sees it as [d * (1 # 2)]. *)
Ltac halve d :=
  let h := fresh "h" in
  let Hh := fresh "Hh" in
  pose proof (half_linear d) as Hh;
  set (h := d / 2) in *.

(** The three regimes of the normaliser. *)
Lemma relevance_regimes (d : Q) :
  (d <= 0 /\ relevance_of_distance d == 1) \/
  (0 < d < 2 /\ relevance_of_distance d == 1 - d / 2) \/
  (2 <= d /\ relevance_of_distance d == 0).
Proof.
  unfold relevance_of_distance, py_max, py_min.
  halve d.
  case_Qltb (1 - h) 1.
  - case_Qltb 0 (1 - h).
    + right; left. split; [split; lra | reflexivity].
    + right; right. split; [lra | reflexivity].
  - left. split; [lra|].
    case_Qltb 0 1; [reflexivity | lra].
Qed.

(** C5.  For every raw distance [d] the normalised relevance
    [max(0, min(1, 1 - d/2))] equals [clamp(1 - d/2, 0, 1)], lies in
    [[0,1]], is 1 at distance 0, is 0 from the normalisation constant 2
    on, and never increases when the distance grows. *)
Theorem relevance_is_clamp :
  forall d : Q,
    relevance_of_distance d == clamp (1 - d / 2) 0 1 /\
    (0 <= relevance_of_distance d /\ relevance_of_distance d <= 1) /\
    relevance_of_distance 0 == 1 /\
    (2 <= d -> relevance_of_distance d == 0) /\
    (forall d', d <= d' -> relevance_of_distance d' <= relevance_of_distance d).
Proof.
  intro d.
  split; [|split; [split|split; [|split]]].
  - unfold clamp.
    destruct (relevance_regimes d) as [[H R] | [[H R] | [H R]]]; rewrite R;
      halve d;
      case_Qltb (1 - h) 0; try lra;
      case_Qltb 1 (1 - h); lra.
  - destruct (relevance_regimes d) as [[H R] | [[H R] | [H R]]]; rewrite R;
      halve d; lra.
  - destruct (relevance_regimes d) as [[H R] | [[H R] | [H R]]]; rewrite R;
      halve d; lra.
  - reflexivity.
  - intro H2.
    destruct (relevance_regimes d) as [[H R] | [[H R] | [H R]]]; rewrite R;
      halve d; lra.
  - intros d' Hle.
    destruct (relevance_regimes d) as [[H R] | [[H R] | [H R]]];
      destruct (relevance_regimes d') as [[H' R'] | [[H' R'] | [H' R']]];
      rewrite R, R'; halve d; halve d'; lra.
Qed.

Lemma relevance_is_clamp_witness :
  2 <= 3 /\ relevance_of_distance 3 == 0 /\
  3 <= 4 /\ relevance_of_distance 4 <= relevance_of_distance 3.
Proof.
  destruct (relevance_is_clamp 3) as (_ & _ & _ & Hzero & Hmono).
  split; [lra|]. split; [apply Hzero; lra|].
  split; [lra|]. apply Hmono; lra.
Defined.

End Normalisation.

(** ** The cascade of plain search *)

Section Cascade.

Variable B : Backend.

(** Unfolds one operation down to the backend calls. *)
Ltac run_op :=
  unfold _query_papers_sync, _semantic_search_sync, _hybrid_search_sync,
    _get_paper_by_id_sync, hybrid_tertiary,
    plain_primary, plain_secondary, semantic_primary, hybrid_primary,
    hybrid_secondary, lookup_store, try_except, bind, ret, lift,
    kb_fetch, duck_fetch; cbn [world log].

(** The three ways a plain search ends; it never raises. *)
Lemma plain_run (query : string) (limit : Z) (s : St B) :
  (exists rows w,
      kb_exec B (plain_kb_query query limit) (world s) = (Ok rows, w) /\
      _query_papers_sync B query limit s =
        (Ok (map normalise_row rows),
         mkSt w (log s ++ [CallKB (plain_kb_query query limit)]))) \/
  (exists e w1 rows w2,
      kb_exec B (plain_kb_query query limit) (world s) = (Raise e, w1) /\
      duck_exec B (plain_duck_query query limit) w1 = (Ok rows, w2) /\
      _query_papers_sync B query limit s =
        (Ok (map (fun row => paper_of_duck row (Some text_fallback_score)) rows),
         mkSt w2 ((log s ++ [CallKB (plain_kb_query query limit)])
                  ++ [CallDuck (plain_duck_query query limit)]))) \/
  (exists e1 w1 e2 w2,
      kb_exec B (plain_kb_query query limit) (world s) = (Raise e1, w1) /\
      duck_exec B (plain_duck_query query limit) w1 = (Raise e2, w2) /\
      _query_papers_sync B query limit s =
        (Ok (sample_data query limit),
         mkSt w2 ((log s ++ [CallKB (plain_kb_query query limit)])
                  ++ [CallDuck (plain_duck_query query limit)]))).
Proof.
  run_op.
  destruct (kb_exec B (plain_kb_query query limit) (world s)) as [[rows | e1] w1] eqn:K.
  - left. exists rows, w1. split; reflexivity.
  - right. cbn [world log].
    destruct (duck_exec B (plain_duck_query query limit) w1) as [[rows | e2] w2] eqn:D.
    + left. exists e1, w1, rows, w2. auto.
    + right. exists e1, w1, e2, w2. auto.
Qed.

Lemma plain_returns (query : string) (limit : Z) (s : St B) :
  exists papers s', _query_papers_sync B query limit s = (Ok papers, s').
Proof.
  destruct (plain_run query limit s)
    as [(rows & w & _ & R) | [(e & w1 & rows & w2 & _ & _ & R)
                             | (e1 & w1 & e2 & w2 & _ & _ & R)]];
    rewrite R; eauto.
Qed.

Lemma sample_data_length (query : string) (limit : Z) :
  Z.of_nat (length (sample_data query limit)) = Z.max 0 (Z.min limit 5).
Proof.
  unfold sample_data, py_range.
  rewrite !length_map, length_seq. lia.
Qed.

Lemma sample_data_scored (query : string) (limit : Z) :
  Forall (fun p => exists x, relevance_score p = Some x) (sample_data query limit).
Proof.
  unfold sample_data. apply Forall_map, Forall_forall.
  intros i _. eexists. reflexivity.
Qed.

(** Every dictionary a plain search returns carries a relevance score. *)
Lemma plain_scored (query : string) (limit : Z) (s : St B) papers s' :
  _query_papers_sync B query limit s = (Ok papers, s') ->
  Forall (fun p => exists x, relevance_score p = Some x) papers.
Proof.
  intro R.
  destruct (plain_run query limit s)
    as [(rows & w & _ & R') | [(e & w1 & rows & w2 & _ & _ & R')
                              | (e1 & w1 & e2 & w2 & _ & _ & R')]];
    rewrite R' in R; inversion R; subst.
  - apply Forall_map, Forall_forall. intros row _. eexists. reflexivity.
  - apply Forall_map, Forall_forall. intros row _. eexists. reflexivity.
  - apply sample_data_scored.
Qed.

(** With backends that honour [LIMIT], a plain search for a non-negative
    [limit] returns at most [limit] dictionaries. *)
Lemma plain_bounded (query : string) (limit : Z) (s : St B) papers s' :
  honours_limit B -> 0 <= limit ->
  _query_papers_sync B query limit s = (Ok papers, s') ->
  (length papers <= Z.to_nat limit)%nat.
Proof.
  intros [HK HD] Hpos R.
  destruct (plain_run query limit s)
    as [(rows & w & K & R') | [(e & w1 & rows & w2 & _ & D & R')
                              | (e1 & w1 & e2 & w2 & _ & _ & R')]];
    rewrite R' in R; inversion R; subst; clear R.
  - rewrite length_map. apply (HK _ _ _ _ K).
  - rewrite length_map. apply (HD _ limit _ _ _ D). reflexivity.
  - pose proof (sample_data_length query limit). lia.
Qed.

(** C10.  The sample batch of the last tier holds [min(limit, 5)]
    dictionaries (none for a negative limit): its size is capped at 5
    whatever the limit, so a plain search asked for more than 5 results
    returns exactly 5 when both backends fail. *)
Theorem sample_batch_capped_at_five :
  forall (query : string) (limit : Z),
    Z.of_nat (length (sample_data query limit)) = Z.max 0 (Z.min limit 5) /\
    (0 <= limit -> Z.of_nat (length (sample_data query limit)) = Z.min limit 5) /\
    (5 < limit ->
     forall (s : St B) e1 w1 e2 w2,
       kb_exec B (plain_kb_query query limit) (world s) = (Raise e1, w1) ->
       duck_exec B (plain_duck_query query limit) w1 = (Raise e2, w2) ->
       exists papers s',
         _query_papers_sync B query limit s = (Ok papers, s') /\
         length papers = 5%nat /\ (Z.of_nat (length papers) < limit)).
Proof.
  intros query limit.
  pose proof (sample_data_length query limit) as L.
  split; [exact L|]. split; [lia|].
  intros Hbig s e1 w1 e2 w2 K D.
  destruct (plain_run query limit s)
    as [(rows & w & K' & _) | [(e & w1' & rows & w2' & K' & D' & _)
                              | (e1' & w1' & e2' & w2' & _ & _ & R)]].
  - congruence.
  - rewrite K in K'. inversion K'; subst. congruence.
  - exists (sample_data query limit). eexists. split; [exact R|]. lia.
Qed.

(** C6.  When the knowledge base and DuckDB both fail, plain search with
    limit 5 returns exactly 5 sample dictionaries; their relevance scores
    strictly decrease with the rank, are all above zero, and every
    identifier starts with the prefix [arxiv-sample-]. *)
Theorem full_fallback_five_samples :
  forall (query : string) (s : St B) e1 w1 e2 w2,
    kb_exec B (plain_kb_query query 5) (world s) = (Raise e1, w1) ->
    duck_exec B (plain_duck_query query 5) w1 = (Raise e2, w2) ->
    exists papers s' scores,
      _query_papers_sync B query 5 s = (Ok papers, s') /\
      length papers = 5%nat /\
      map relevance_score papers = map Some scores /\
      StronglySorted (fun a b => (b < a)%Q) scores /\
      Forall (fun x => (0 < x)%Q) scores /\
      Forall (fun p => Str.startswith (entry_id p) "arxiv-sample-" = true) papers.
Proof.
  intros query s e1 w1 e2 w2 K D.
  destruct (plain_run query 5 s)
    as [(rows & w & K' & _) | [(e & w1' & rows & w2' & K' & D' & _)
                              | (e1' & w1' & e2' & w2' & _ & _ & R)]].
  - congruence.
  - rewrite K in K'. inversion K'; subst. congruence.
  - exists (sample_data query 5). eexists.
    exists (map sample_score [1; 2; 3; 4; 5]).
    split; [exact R|].
    split; [reflexivity|].
    split; [reflexivity|].
    split.
    + repeat (constructor; [| repeat (constructor; [reflexivity|]); constructor]).
      constructor.
    + split.
      * repeat (constructor; [reflexivity|]). constructor.
      * repeat (constructor; [reflexivity|]). constructor.
Qed.

(** C7.  The cascade leaves a tier only when that tier raised.  When the
    knowledge base answers (an empty list included), plain search returns
    exactly the normalised rows and the only backend call made is that
    one; the same holds for the threshold search with its loop applied to
    the rows, and for hybrid search whenever its first tier completes. *)
Theorem primary_success_ends_cascade :
  forall (query : string) (s : St B),
    (forall limit rows w,
        kb_exec B (plain_kb_query query limit) (world s) = (Ok rows, w) ->
        _query_papers_sync B query limit s =
          (Ok (map normalise_row rows),
           mkSt w (log s ++ [CallKB (plain_kb_query query limit)]))) /\
    (forall threshold rows w,
        kb_exec B (semantic_kb_query query threshold) (world s) = (Ok rows, w) ->
        _semantic_search_sync B query threshold s =
          (Ok (filter_map (semantic_row threshold) rows),
           mkSt w (log s ++ [CallKB (semantic_kb_query query threshold)]))) /\
    (forall metadata_filters papers s',
        hybrid_primary B query metadata_filters s = (Ok papers, s') ->
        _hybrid_search_sync B query metadata_filters s = (Ok papers, s') /\
        log s' = (log s ++ [CallKB (hybrid_kb_query query)])%list).
Proof.
  intros query s. split; [|split].
  - intros limit rows w K. run_op. rewrite K. reflexivity.
  - intros threshold rows w K. run_op. rewrite K. reflexivity.
  - intros mf papers s' P. split.
    + unfold _hybrid_search_sync, try_except. rewrite P. reflexivity.
    + revert P. run_op.
      destruct (kb_exec B (hybrid_kb_query query) (world s)) as [[rows | e] w].
      * intro P. inversion P. reflexivity.
      * intro P. inversion P.
Qed.

(** ** Threshold-filtered semantic search *)

Lemma filter_map_length {R A} (f : R -> option A) (l : list R) :
  (length (filter_map f l) <= length l)%nat.
Proof.
  induction l as [|x r IH]; simpl; [lia|].
  destruct (f x); simpl; lia.
Qed.

Lemma filter_map_Forall {R A} (f : R -> option A) (P : A -> Prop) (l : list R) :
  (forall x a, f x = Some a -> P a) -> Forall P (filter_map f l).
Proof.
  intro H. induction l as [|x r IH]; simpl; [constructor|].
  destruct (f x) eqn:E; [constructor; eauto | assumption].
Qed.

Lemma semantic_row_above (threshold : Q) (row : KBRow) (p : Paper) :
  semantic_row threshold row = Some p ->
  exists x, relevance_score p = Some x /\ (threshold <= x)%Q.
Proof.
  unfold semantic_row.
  destruct (Qle_bool threshold (relevance_of_distance (distance_of row))) eqn:E;
    [|discriminate].
  intro H. inversion H; subst. eexists. split; [reflexivity|].
  apply Qle_bool_iff. exact E.
Qed.

(** The two ways a threshold search ends. *)
Lemma semantic_run (query : string) (threshold : Q) (s : St B) :
  (exists rows w,
      kb_exec B (semantic_kb_query query threshold) (world s) = (Ok rows, w) /\
      _semantic_search_sync B query threshold s =
        (Ok (filter_map (semantic_row threshold) rows),
         mkSt w (log s ++ [CallKB (semantic_kb_query query threshold)]))) \/
  (exists e w results s',
      kb_exec B (semantic_kb_query query threshold) (world s) = (Raise e, w) /\
      _query_papers_sync B query 50
        (mkSt w (log s ++ [CallKB (semantic_kb_query query threshold)]))
        = (Ok results, s') /\
      _semantic_search_sync B query threshold s =
        (Ok (filter (fun r => Qle_bool threshold (score_or_zero r)) results), s')).
Proof.
  unfold _semantic_search_sync, semantic_primary, try_except, bind, ret, kb_fetch.
  destruct (kb_exec B (semantic_kb_query query threshold) (world s))
    as [[rows | e] w] eqn:K.
  - left. exists rows, w. auto.
  - right.
    destruct (plain_returns query 50
                (mkSt w (log s ++ [CallKB (semantic_kb_query query threshold)])))
      as (results & s' & R).
    exists e, w, results, s'. rewrite R. auto.
Qed.

Lemma semantic_returns (query : string) (threshold : Q) (s : St B) :
  exists papers s', _semantic_search_sync B query threshold s = (Ok papers, s').
Proof.
  destruct (semantic_run query threshold s)
    as [(rows & w & _ & R) | (e & w & results & s' & _ & _ & R)];
    rewrite R; eauto.
Qed.

(** C4.  The threshold search always returns a list, and every dictionary
    in it has a relevance score at or above the threshold, whether the
    knowledge base answered or the search fell back to plain search.  With
    backends that honour [LIMIT] the list has at most 50 entries. *)
Theorem semantic_threshold_and_cap :
  forall (query : string) (threshold : Q) (s : St B),
    exists papers s',
      _semantic_search_sync B query threshold s = (Ok papers, s') /\
      Forall (fun p => exists x, relevance_score p = Some x /\ (threshold <= x)%Q)
             papers /\
      (honours_limit B -> (length papers <= 50)%nat).
Proof.
  intros query threshold s.
  destruct (semantic_run query threshold s)
    as [(rows & w & K & R) | (e & w & results & s' & K & P & R)];
    rewrite R; do 2 eexists; (split; [reflexivity|]); split.
  - apply filter_map_Forall. intros row p. apply semantic_row_above.
  - intros [HK _]. apply HK in K. cbn in K.
    pose proof (filter_map_length (semantic_row threshold) rows). lia.
  - apply Forall_forall. intros p Hin.
    apply filter_In in Hin. destruct Hin as [Hin Hge].
    pose proof (plain_scored query 50 _ _ _ P) as Hs.
    rewrite Forall_forall in Hs. destruct (Hs p Hin) as [x Hx].
    exists x. split; [exact Hx|].
    unfold score_or_zero in Hge. rewrite Hx in Hge.
    apply Qle_bool_iff. exact Hge.
  - intro HL.
    pose proof (plain_bounded query 50 _ _ _ HL ltac:(lia) P) as Hlen.
    pose proof (filter_length_le
                  (fun r => Qle_bool threshold (score_or_zero r)) results).
    change (Z.to_nat 50) with 50%nat in Hlen. lia.
Qed.

(** ** Hybrid search *)


Lemma collect_returns {R A} (body : R -> Res (option A)) (rows : list R) :
  (forall row, exists o, body row = Ok o) ->
  exists l, collect body rows = Ok l.
Proof.
  intro H. induction rows as [|row rest [l IH]]; simpl.
  - eauto.
  - destruct (H row) as [o Ho]. rewrite Ho, IH. simpl. eauto.
Qed.

Lemma active_filters_inv (metadata_filters : option Filters) (f : Filters) :
  active_filters metadata_filters = Some f -> metadata_filters = Some f.
Proof.
  unfold active_filters. destruct metadata_filters as [g|]; [|discriminate].
  destruct (f_authors g), (f_year g), (f_categories g); congruence.
Qed.

(** Without a year filter nothing in hybrid search can raise past the
    handlers: the only uncaught exception is the year conversion of the
    last fallback. *)
Lemma hybrid_returns_without_year (query : string)
      (metadata_filters : option Filters) (s : St B) :
  (forall f, metadata_filters = Some f -> f_year f = None) ->
  exists papers s', _hybrid_search_sync B query metadata_filters s = (Ok papers, s').
Proof.
  intro Hno.
  unfold _hybrid_search_sync, try_except.
  destruct (hybrid_primary B query metadata_filters s) as [[papers | e] s1];
    [eauto|].
  destruct (hybrid_secondary B query metadata_filters s1) as [[papers | e'] s2];
    [eauto|].
  unfold hybrid_tertiary, bind.
  destruct (plain_returns query 50 s2) as (results & s3 & R). rewrite R.
  destruct (active_filters metadata_filters) as [f|] eqn:Hact.
  - apply active_filters_inv, Hno in Hact.
    destruct (collect_returns (post_filter f) results) as [l Hl].
    + intro result. unfold post_filter. rewrite Hact. simpl. eauto.
    + unfold lift. rewrite Hl. eauto.
  - unfold ret. eauto.
Qed.

(** ** The lexical tier *)

(** C8.  Every dictionary built by a lexical tier carries that tier's
    constant score: 0.75 when plain search falls back to DuckDB, 0.85 when
    hybrid search does. *)
Theorem lexical_score_fixed_per_operation :
  forall (query : string) (s : St B),
    (forall limit e w1 rows w2,
        kb_exec B (plain_kb_query query limit) (world s) = (Raise e, w1) ->
        duck_exec B (plain_duck_query query limit) w1 = (Ok rows, w2) ->
        exists papers s',
          _query_papers_sync B query limit s = (Ok papers, s') /\
          length papers = length rows /\
          Forall (fun p => relevance_score p = Some text_fallback_score) papers) /\
    (forall metadata_filters e s1 rows w2,
        hybrid_primary B query metadata_filters s = (Raise e, s1) ->
        duck_exec B (hybrid_duck_query query metadata_filters) (world s1)
          = (Ok rows, w2) ->
        exists papers s',
          _hybrid_search_sync B query metadata_filters s = (Ok papers, s') /\
          length papers = length rows /\
          Forall (fun p => relevance_score p = Some hybrid_fallback_score) papers).
Proof.
  intros query s. split.
  - intros limit e w1 rows w2 K D.
    run_op. rewrite K. cbn [world log]. rewrite D.
    do 2 eexists. split; [reflexivity|]. split; [apply length_map|].
    apply Forall_map, Forall_forall. intros row _. reflexivity.
  - intros mf e s1 rows w2 P D.
    unfold _hybrid_search_sync, try_except. rewrite P.
    unfold hybrid_secondary, bind, ret, duck_fetch. rewrite D.
    do 2 eexists. split; [reflexivity|]. split; [apply length_map|].
    apply Forall_map, Forall_forall. intros row _. reflexivity.
Qed.

(** ** Point lookup *)

(** C9.  The point lookup never raises.  When the store answers that it
    has no row for the identifier the result is [None]; a dictionary is
    returned only for a stored row or, when the store raised, as the
    sample dictionary of an identifier that starts with [arxiv-]; without
    that prefix a failing store gives [None] as well. *)
Theorem lookup_absent_is_none :
  forall (entry_id : string) (s : St B),
    (exists r s', _get_paper_by_id_sync B entry_id s = (Ok r, s')) /\
    (forall w,
        duck_exec B (lookup_query entry_id) (world s) = (Ok [], w) ->
        fst (_get_paper_by_id_sync B entry_id s) = Ok None) /\
    (forall p s',
        _get_paper_by_id_sync B entry_id s = (Ok (Some p), s') ->
        (exists row rows w,
            duck_exec B (lookup_query entry_id) (world s) = (Ok (row :: rows), w) /\
            p = paper_of_duck row None) \/
        (exists e w,
            duck_exec B (lookup_query entry_id) (world s) = (Raise e, w) /\
            Str.startswith entry_id "arxiv-" = true /\
            p = sample_for_id entry_id)) /\
    (Str.startswith entry_id "arxiv-" = false ->
     forall e w,
       duck_exec B (lookup_query entry_id) (world s) = (Raise e, w) ->
       fst (_get_paper_by_id_sync B entry_id s) = Ok None).
Proof.
  intros entry_id s. run_op.
  destruct (duck_exec B (lookup_query entry_id) (world s)) as [[rows | e] w] eqn:D.
  - repeat apply conj.
    + eauto.
    + intros w' H. inversion H; subst. reflexivity.
    + intros p s' H. left. destruct rows as [|row rows]; inversion H; subst.
      exists row, rows, w. auto.
    + intros _ e w' H. discriminate.
  - destruct (Str.startswith entry_id "arxiv-") eqn:P; repeat apply conj.
    + eauto.
    + intros w' H. discriminate.
    + intros p s' H. right. inversion H; subst. exists e, w. auto.
    + discriminate.
    + eauto.
    + intros w' H. discriminate.
    + intros p s' H. discriminate.
    + intros _ e' w' H. reflexivity.
Qed.

End Cascade.

(** ** Concrete runs *)

Import Scenario.

Lemma kb_only_honours_limit (rows : list KBRow) : honours_limit (kb_only rows).
Proof.
  split.
  - intros q w r w' H. cbn in H. inversion H; subst. apply firstn_le_length.
  - intros q n w r w' H. discriminate.
Qed.

Lemma semantic_threshold_and_cap_witness :
  honours_limit (kb_only [dated_2017; undated]) /\
  exists papers s',
    _semantic_search_sync (kb_only [dated_2017; undated]) "transformers" (7 # 10)
      (start _ tt) = (Ok papers, s') /\
    Forall (fun p => exists x, relevance_score p = Some x /\ (7 # 10 <= x)%Q) papers /\
    (length papers <= 50)%nat.
Proof.
  split.
  - apply kb_only_honours_limit.
  - destruct (semantic_threshold_and_cap (kb_only [dated_2017; undated])
                "transformers" (7 # 10) (start _ tt))
      as (papers & s' & R & Habove & Hcap).
    exists papers, s'. split; [exact R|]. split; [exact Habove|].
    apply Hcap, kb_only_honours_limit.
Defined.

Lemma sample_batch_capped_at_five_witness :
  Z.of_nat (length (sample_data "anything" 10)) = Z.min 10 5 /\
  exists papers s',
    _query_papers_sync all_down "anything" 10 (start _ tt) = (Ok papers, s') /\
    length papers = 5%nat /\ Z.of_nat (length papers) < 10.
Proof.
  destruct (sample_batch_capped_at_five all_down "anything" 10) as (_ & Hnn & Hbig).
  split.
  - apply Hnn. lia.
  - apply (Hbig ltac:(lia) (start _ tt) unreachable tt unreachable tt); reflexivity.
Defined.

Lemma full_fallback_five_samples_witness :
  exists papers s' scores,
    _query_papers_sync all_down "anything" 5 (start _ tt) = (Ok papers, s') /\
    length papers = 5%nat /\
    map relevance_score papers = map Some scores /\
    StronglySorted (fun a b => (b < a)%Q) scores /\
    Forall (fun x => (0 < x)%Q) scores /\
    Forall (fun p => Str.startswith (entry_id p) "arxiv-sample-" = true) papers.
Proof.
  apply (full_fallback_five_samples all_down "anything" (start _ tt)
           unreachable tt unreachable tt); reflexivity.
Defined.

Lemma primary_success_ends_cascade_witness :
  outcome (_query_papers_sync (kb_only []) "neural networks" 10 (start _ tt))
    = (Ok [], [CallKB (plain_kb_query "neural networks" 10)]) /\
  outcome (_semantic_search_sync (kb_only []) "neural networks" (7 # 10) (start _ tt))
    = (Ok [], [CallKB (semantic_kb_query "neural networks" (7 # 10))]) /\
  outcome (_hybrid_search_sync (kb_only []) "neural networks" None (start _ tt))
    = (Ok [], [CallKB (hybrid_kb_query "neural networks")]).
Proof.
  destruct (primary_success_ends_cascade (kb_only []) "neural networks" (start _ tt))
    as (Hplain & Hsem & Hhyb).
  split; [|split].
  - rewrite (Hplain 10 [] tt eq_refl). reflexivity.
  - rewrite (Hsem (7 # 10)%Q [] tt eq_refl). reflexivity.
  - destruct (Hhyb None [] (mkSt tt [CallKB (hybrid_kb_query "neural networks")])
                eq_refl) as [R _].
    rewrite R. reflexivity.
Defined.


Lemma lexical_score_fixed_per_operation_witness :
  (exists papers s',
      _query_papers_sync (duck_only [duck_row "1512.03385"]) "residual" 10 (start _ tt)
        = (Ok papers, s') /\
      length papers = 1%nat /\
      Forall (fun p => relevance_score p = Some text_fallback_score) papers) /\
  (exists papers s',
      _hybrid_search_sync (duck_only [duck_row "1512.03385"]) "residual" None (start _ tt)
        = (Ok papers, s') /\
      length papers = 1%nat /\
      Forall (fun p => relevance_score p = Some hybrid_fallback_score) papers).
Proof.
  destruct (lexical_score_fixed_per_operation
              (duck_only [duck_row "1512.03385"]) "residual" (start _ tt))
    as (Hplain & Hhyb).
  split.
  - apply (Hplain 10 unreachable tt [duck_row "1512.03385"] tt); reflexivity.
  - apply (Hhyb None unreachable
             (mkSt tt [CallKB (hybrid_kb_query "residual")])
             [duck_row "1512.03385"] tt); reflexivity.
Defined.

Lemma lookup_absent_is_none_witness :
  fst (_get_paper_by_id_sync (duck_only [duck_row "1512.03385"]) "does-not-exist"
         (start _ tt)) = Ok None /\
  fst (_get_paper_by_id_sync all_down "does-not-exist" (start _ tt)) = Ok None /\
  ((exists row rows w,
       duck_exec all_down (lookup_query "arxiv-2401.00001") tt = (Ok (row :: rows), w) /\
       sample_for_id "arxiv-2401.00001" = paper_of_duck row None) \/
   (exists e w,
       duck_exec all_down (lookup_query "arxiv-2401.00001") tt = (Raise e, w) /\
       Str.startswith "arxiv-2401.00001" "arxiv-" = true /\
       sample_for_id "arxiv-2401.00001" = sample_for_id "arxiv-2401.00001")).
Proof.
  split; [|split].
  - destruct (lookup_absent_is_none (duck_only [duck_row "1512.03385"])
                "does-not-exist" (start _ tt)) as (_ & Hnone & _ & _).
    apply (Hnone tt). reflexivity.
  - destruct (lookup_absent_is_none all_down "does-not-exist" (start _ tt))
      as (_ & _ & _ & Hdown).
    apply (Hdown eq_refl unreachable tt). reflexivity.
  - destruct (lookup_absent_is_none all_down "arxiv-2401.00001" (start _ tt))
      as (_ & _ & Hsome & _).
    apply (Hsome (sample_for_id "arxiv-2401.00001")
             (mkSt tt [CallDuck (lookup_query "arxiv-2401.00001")])).
    reflexivity.
Defined.

(** C1.  Plain search and the threshold search return a list from every
    state of the backends.  Hybrid search does not: its last fallback
    filters outside any [try].  Here the knowledge base holds a row whose
    date does not start with a year and DuckDB is unreachable; the year
    test raises in the first tier, DuckDB raises in the second, and the
    same test raises again, uncaught, on the rows plain search returned. *)
Theorem hybrid_search_can_raise :
  (forall B query limit s,
      exists papers s', _query_papers_sync B query limit s = (Ok papers, s')) /\
  (forall B query threshold s,
      exists papers s', _semantic_search_sync B query threshold s = (Ok papers, s')) /\
  outcome (_hybrid_search_sync (kb_only [odd_date]) "transformers" (Some year_2020)
             (start _ tt))
    = (Raise (ValueError "invalid literal for int() with base 10: 'n.d.'"),
       [CallKB (hybrid_kb_query "transformers");
        CallDuck (hybrid_duck_query "transformers" (Some year_2020));
        CallKB (plain_kb_query "transformers" 50)]).
Proof.
  split; [exact plain_returns|].
  split; [exact semantic_returns|].
  reflexivity.
Qed.


(** C3.  The last fallback of hybrid search tests authors and year only.
    With a categories filter [physics] it returns the five sample
    dictionaries when both backends are down, and a stored record when the
    knowledge base recovers after a first failure; none of them has
    [physics] in its categories. *)
Theorem last_fallback_skips_categories :
  f_categories physics_only = Some "physics" /\
  fst (_hybrid_search_sync all_down "graph theory" (Some physics_only) (start _ tt))
    = Ok (sample_data "graph theory" 50) /\
  length (sample_data "graph theory" 50) = 5%nat /\
  Forall (fun p => substring_ok (f_categories physics_only) (categories p) = false)
         (sample_data "graph theory" 50) /\
  fst (_hybrid_search_sync (flaky_kb [dated_2017]) "graph theory" (Some physics_only)
         (start _ O))
    = Ok [normalise_row dated_2017] /\
  substring_ok (f_categories physics_only) (categories (normalise_row dated_2017))
    = false.
Proof.
  repeat split.
  repeat (constructor; [reflexivity|]). constructor.
Qed.

(** The lexical score is not one constant across operations: the same
    DuckDB row is scored 0.75 by plain search and 0.85 by hybrid search. *)
Lemma lexical_score_differs_between_operations :
  fst (_query_papers_sync (duck_only [duck_row "1512.03385"]) "residual" 10
         (start _ tt))
    = Ok [paper_of_duck (duck_row "1512.03385") (Some (75 # 100)%Q)] /\
  fst (_hybrid_search_sync (duck_only [duck_row "1512.03385"]) "residual" None
         (start _ tt))
    = Ok [paper_of_duck (duck_row "1512.03385") (Some (85 # 100)%Q)] /\
  ~ (75 # 100 == 85 # 100)%Q.
Proof.
  split; [reflexivity|]. split; [reflexivity|]. discriminate.
Qed.

(** The sample dictionary is not reserved to sample identifiers.  The
    store holds one paper and no row for [arxiv-2401.00001], an identifier
    that does not follow the [arxiv-sample-] naming of the search
    fallback.  While the store fails, the lookup of that identifier
    returns the sample dictionary; once the store answers, the same lookup
    returns [None]. *)
Lemma lookup_invents_record_for_non_sample_id :
  Str.startswith "arxiv-2401.00001" "arxiv-sample-" = false /\
  filter (fun r => String.eqb (d_entry_id r) "arxiv-2401.00001")
         [duck_row "1512.03385"] = [] /\
  outcome (_get_paper_by_id_sync (flaky_store [duck_row "1512.03385"])
             "arxiv-2401.00001" (start _ O))
    = (Ok (Some (sample_for_id "arxiv-2401.00001")),
       [CallDuck (lookup_query "arxiv-2401.00001")]) /\
  outcome (_get_paper_by_id_sync (flaky_store [duck_row "1512.03385"])
             "arxiv-2401.00001" (start _ 1%nat))
    = (Ok None, [CallDuck (lookup_query "arxiv-2401.00001")]).
Proof. repeat split. Qed.

(** * Further properties of the query layer *)

(** ** Quote doubling *)

Lemma sql_unescape_other (c : ascii) (t : string) :
  Ascii.eqb c "'"%char = false ->
  sql_unescape (String c t) = String c (sql_unescape t).
Proof.
  intro Q. destruct t as [|c' r]; [reflexivity|].
  cbn [sql_unescape]. rewrite Q. reflexivity.
Qed.

Lemma sql_unescape_pair (c : ascii) (r : string) :
  Ascii.eqb c "'"%char = true ->
  sql_unescape (String c (String c r)) = String c (sql_unescape r).
Proof.
  intro Q. cbn [sql_unescape]. rewrite Q. reflexivity.
Qed.

(** Read back as an SQL literal, the escaped text is the original text;
    so two different texts are never sent as the same literal. *)
Theorem sql_escape_round_trip :
  forall s : string,
    sql_unescape (Str.sql_escape s) = s /\
    (forall t, Str.sql_escape s = Str.sql_escape t -> s = t).
Proof.
  assert (RT : forall s, sql_unescape (Str.sql_escape s) = s).
  { induction s as [|c r IH]; [reflexivity|].
    cbn [Str.sql_escape].
    destruct (Ascii.eqb c "'"%char) eqn:Q.
    - rewrite (sql_unescape_pair _ _ Q), IH. reflexivity.
    - rewrite (sql_unescape_other _ _ Q), IH. reflexivity. }
  intro s. split; [apply RT|].
  intros t H. rewrite <- (RT s), <- (RT t), H. reflexivity.
Qed.

Lemma sql_escape_round_trip_witness :
  Str.sql_escape "x' OR '1'='1" = Str.sql_escape "x' OR '1'='1" /\
  "x' OR '1'='1" = "x' OR '1'='1".
Proof.
  split; [reflexivity|].
  apply (proj2 (sql_escape_round_trip "x' OR '1'='1") "x' OR '1'='1").
  reflexivity.
Defined.

Lemma quotes_paired_escape (s : string) : quotes_paired (Str.sql_escape s) = true.
Proof.
  induction s as [|c r IH]; [reflexivity|].
  cbn [Str.sql_escape].
  destruct (Ascii.eqb c "'"%char) eqn:Q; cbn [quotes_paired]; rewrite Q.
  - cbn. exact IH.
  - exact IH.
Qed.

(** The escaped text never holds a lone quote, whatever the input; it is
    longer than the input by one character per quote, hence at most twice
    as long. *)
Theorem sql_escape_pairs_quotes :
  forall s : string,
    quotes_paired (Str.sql_escape s) = true /\
    String.length (Str.sql_escape s) = (String.length s + quote_count s)%nat /\
    (String.length (Str.sql_escape s) <= 2 * String.length s)%nat.
Proof.
  intro s. split; [apply quotes_paired_escape|].
  assert (L : String.length (Str.sql_escape s)
              = (String.length s + quote_count s)%nat
              /\ (quote_count s <= String.length s)%nat).
  { unfold quote_count.
    induction s as [|c r [IH1 IH2]]; [split; reflexivity|].
    cbn [Str.sql_escape list_ascii_of_string filter String.length].
    destruct (Ascii.eqb c "'"%char); cbn [String.length length];
      rewrite IH1; split; lia. }
  destruct L as [L1 L2]. split; [exact L1 | lia].
Qed.

Example lone_quote_is_not_paired : quotes_paired "x' OR '1'='1" = false.
Proof. reflexivity. Qed.

(** ** The decimal text of an integer *)



(** ** Which backend calls an operation makes *)

Section Calls.

Variable B : Backend.

Ltac run_tier :=
  unfold hybrid_primary, hybrid_secondary, lookup_store, plain_primary,
    plain_secondary, semantic_primary, bind, ret, lift, kb_fetch, duck_fetch;
  cbn [world log].

Lemma plain_calls (query : string) (limit : Z) (s : St B) :
  exists evs,
    calls_since s (_query_papers_sync B query limit s) evs /\
    (evs = [CallKB (plain_kb_query query limit)] \/
     evs = [CallKB (plain_kb_query query limit);
            CallDuck (plain_duck_query query limit)]).
Proof.
  unfold calls_since.
  destruct (plain_run B query limit s)
    as [(rows & w & _ & R) | [(e & w1 & rows & w2 & _ & _ & R)
                             | (e1 & w1 & e2 & w2 & _ & _ & R)]];
    rewrite R; cbn [snd log]; eexists; split; try reflexivity.
  - left. reflexivity.
  - rewrite <- app_assoc. reflexivity.
  - right. reflexivity.
  - rewrite <- app_assoc. reflexivity.
  - right. reflexivity.
Qed.

Lemma semantic_calls (query : string) (threshold : Q) (s : St B) :
  exists evs,
    calls_since s (_semantic_search_sync B query threshold s) evs /\
    (evs = [CallKB (semantic_kb_query query threshold)] \/
     evs = [CallKB (semantic_kb_query query threshold);
            CallKB (plain_kb_query query 50)] \/
     evs = [CallKB (semantic_kb_query query threshold);
            CallKB (plain_kb_query query 50);
            CallDuck (plain_duck_query query 50)]).
Proof.
  unfold calls_since.
  destruct (semantic_run B query threshold s)
    as [(rows & w & _ & R) | (e & w & results & s' & _ & P & R)]; rewrite R.
  - eexists. split; [reflexivity|]. left. reflexivity.
  - destruct (plain_calls query 50
                (mkSt w (log s ++ [CallKB (semantic_kb_query query threshold)])))
      as (evs & C & H).
    unfold calls_since in C. rewrite P in C. cbn [snd log] in *.
    exists (CallKB (semantic_kb_query query threshold) :: evs).
    split.
    + rewrite C, <- app_assoc. reflexivity.
    + destruct H as [-> | ->]; auto.
Qed.

Lemma hybrid_primary_calls (query : string) (mf : option Filters) (s : St B) :
  log (snd (hybrid_primary B query mf s))
  = (log s ++ [CallKB (hybrid_kb_query query)])%list.
Proof.
  run_tier.
  destruct (kb_exec B (hybrid_kb_query query) (world s)) as [[rows | e] w];
    reflexivity.
Qed.

Lemma hybrid_secondary_calls (query : string) (mf : option Filters) (s : St B) :
  log (snd (hybrid_secondary B query mf s))
  = (log s ++ [CallDuck (hybrid_duck_query query mf)])%list.
Proof.
  run_tier.
  destruct (duck_exec B (hybrid_duck_query query mf) (world s)) as [[rows | e] w];
    reflexivity.
Qed.

Lemma hybrid_tertiary_calls (query : string) (mf : option Filters) (s : St B) :
  log (snd (hybrid_tertiary B query mf s))
  = log (snd (_query_papers_sync B query 50 s)).
Proof.
  unfold hybrid_tertiary, bind.
  destruct (plain_returns B query 50 s) as (results & s' & R). rewrite R.
  destruct (active_filters mf); reflexivity.
Qed.

Lemma hybrid_calls (query : string) (mf : option Filters) (s : St B) :
  exists evs,
    calls_since s (_hybrid_search_sync B query mf s) evs /\
    (evs = [CallKB (hybrid_kb_query query)] \/
     evs = [CallKB (hybrid_kb_query query); CallDuck (hybrid_duck_query query mf)] \/
     evs = [CallKB (hybrid_kb_query query); CallDuck (hybrid_duck_query query mf);
            CallKB (plain_kb_query query 50)] \/
     evs = [CallKB (hybrid_kb_query query); CallDuck (hybrid_duck_query query mf);
            CallKB (plain_kb_query query 50); CallDuck (plain_duck_query query 50)]).
Proof.
  unfold calls_since, _hybrid_search_sync, try_except.
  pose proof (hybrid_primary_calls query mf s) as H1.
  destruct (hybrid_primary B query mf s) as [[papers | e] s1]; cbn [snd] in *.
  - eexists. split; [exact H1|]. auto.
  - pose proof (hybrid_secondary_calls query mf s1) as H2.
    destruct (hybrid_secondary B query mf s1) as [[papers | e'] s2];
      cbn [snd] in *.
    + eexists. split; [rewrite H2, H1, <- app_assoc; reflexivity|]. auto.
    + rewrite hybrid_tertiary_calls.
      destruct (plain_calls query 50 s2) as (evs & C & H).
      unfold calls_since in C. rewrite C, H2, H1.
      exists (CallKB (hybrid_kb_query query)
                :: CallDuck (hybrid_duck_query query mf) :: evs).
      split; [rewrite <- !app_assoc; reflexivity|].
      destruct H as [-> | ->]; auto.
Qed.

Lemma lookup_calls (entry_id : string) (s : St B) :
  calls_since s (_get_paper_by_id_sync B entry_id s)
    [CallDuck (lookup_query entry_id)].
Proof.
  unfold calls_since, _get_paper_by_id_sync, try_except. run_tier.
  destruct (duck_exec B (lookup_query entry_id) (world s)) as [[rows | e] w].
  - reflexivity.
  - destruct (Str.startswith entry_id "arxiv-"); reflexivity.
Qed.

(** The backend calls of one request: plain search asks the knowledge
    base and then at most DuckDB; the threshold search makes at most three
    calls and hybrid search at most four, the knowledge base always first
    and plain search's two queries (limit 50) last; the point lookup makes
    exactly one DuckDB call and never asks the knowledge base. *)
Theorem backend_call_discipline :
  forall (text : string) (s : St B),
    (forall limit, exists evs,
        calls_since s (_query_papers_sync B text limit s) evs /\
        (evs = [CallKB (plain_kb_query text limit)] \/
         evs = [CallKB (plain_kb_query text limit);
                CallDuck (plain_duck_query text limit)])) /\
    (forall threshold, exists evs,
        calls_since s (_semantic_search_sync B text threshold s) evs /\
        (evs = [CallKB (semantic_kb_query text threshold)] \/
         evs = [CallKB (semantic_kb_query text threshold);
                CallKB (plain_kb_query text 50)] \/
         evs = [CallKB (semantic_kb_query text threshold);
                CallKB (plain_kb_query text 50);
                CallDuck (plain_duck_query text 50)])) /\
    (forall mf, exists evs,
        calls_since s (_hybrid_search_sync B text mf s) evs /\
        (evs = [CallKB (hybrid_kb_query text)] \/
         evs = [CallKB (hybrid_kb_query text); CallDuck (hybrid_duck_query text mf)] \/
         evs = [CallKB (hybrid_kb_query text); CallDuck (hybrid_duck_query text mf);
                CallKB (plain_kb_query text 50)] \/
         evs = [CallKB (hybrid_kb_query text); CallDuck (hybrid_duck_query text mf);
                CallKB (plain_kb_query text 50);
                CallDuck (plain_duck_query text 50)])) /\
    calls_since s (_get_paper_by_id_sync B text s) [CallDuck (lookup_query text)].
Proof.
  intros text s. split; [|split; [|split]].
  - intro limit. apply plain_calls.
  - intro threshold. apply semantic_calls.
  - intro mf. apply hybrid_calls.
  - apply lookup_calls.
Qed.



End Calls.

(** ** Scores, limits and thresholds *)

Lemma relevance_bounds (d : Q) :
  (0 <= relevance_of_distance d)%Q /\ (relevance_of_distance d <= 1)%Q.
Proof.
  pose proof (half_linear d) as Hh.
  destruct (relevance_regimes d) as [[H R] | [[H R] | [H R]]]; rewrite R;
    set (h := (d / 2)%Q) in *; split; lra.
Qed.

Lemma normalise_row_unit (row : KBRow) : unit_score (normalise_row row).
Proof.
  exists (relevance_of_distance (distance_of row)).
  split; [reflexivity | apply relevance_bounds].
Qed.

Lemma sample_range (limit : Z) (i : Z) :
  In i (py_range 1 (Z.min (limit + 1) 6)) -> 1 <= i <= 5.
Proof.
  unfold py_range. rewrite in_map_iff.
  intros (k & <- & Hk). apply in_seq in Hk. lia.
Qed.

Lemma sample_score_unit (i : Z) :
  1 <= i <= 5 -> (0 <= sample_score i)%Q /\ (sample_score i <= 1)%Q.
Proof.
  intro H.
  assert (C : i = 1 \/ i = 2 \/ i = 3 \/ i = 4 \/ i = 5) by lia.
  destruct C as [-> | [-> | [-> | [-> | ->]]]]; split; discriminate.
Qed.

(** What [collect] returns comes from the rows, one accepted row each. *)
Lemma collect_inv {R A} (body : R -> Res (option A)) (rows : list R) (l : list A) :
  collect body rows = Ok l ->
  Forall (fun a => exists row, In row rows /\ body row = Ok (Some a)) l.
Proof.
  revert l. induction rows as [|row rest IH]; simpl; intros l H.
  - inversion H. constructor.
  - destruct (body row) as [o|e] eqn:Hb; [|discriminate]. simpl in H.
    destruct (collect body rest) as [acc|e]; [|discriminate]. simpl in H.
    specialize (IH acc eq_refl).
    assert (Hacc : Forall (fun a => exists r, In r (row :: rest)
                                              /\ body r = Ok (Some a)) acc).
    { eapply Forall_impl; [|exact IH].
      intros a (r & Hin & Hr). exists r. split; [right; exact Hin | exact Hr]. }
    destruct o as [a|]; inversion H; subst; [constructor|]; try exact Hacc.
    exists row. split; [left; reflexivity | exact Hb].
Qed.

Lemma hybrid_row_shape (mf : option Filters) (row : KBRow) (p : Paper) :
  hybrid_row mf row = Ok (Some p) -> p = normalise_row row.
Proof.
  unfold hybrid_row, normalise_row.
  destruct (active_filters mf) as [f|]; [|intro H; inversion H; reflexivity].
  destruct (substring_ok (f_authors f) (or_empty (kb_authors row)));
    [|discriminate].
  destruct (kb_year_ok (f_year f) row) as [[|]|e]; cbn; try discriminate.
  destruct (substring_ok (f_categories f) (or_empty (kb_categories row)));
    [|discriminate].
  intro H. inversion H. reflexivity.
Qed.

Lemma post_filter_shape (f : Filters) (result p : Paper) :
  post_filter f result = Ok (Some p) -> p = result.
Proof.
  unfold post_filter.
  destruct (match f_year f with
            | Some year_filter =>
                if substring_ok (f_authors f) (authors result)
                then if date_truthy (published_date result)
                     then res_bind (pub_year_of (published_date result))
                            (fun pub_year => Ok (negb (pub_year <? year_filter)))
                     else Ok true
                else Ok false
            | None => Ok (substring_ok (f_authors f) (authors result))
            end) as [[|]|e]; cbn; intro H; inversion H; reflexivity.
Qed.

Section Scores.

Variable B : Backend.

Lemma plain_unit (query : string) (limit : Z) (s : St B) papers s' :
  _query_papers_sync B query limit s = (Ok papers, s') ->
  Forall unit_score papers.
Proof.
  intro R.
  destruct (plain_run B query limit s)
    as [(rows & w & _ & R') | [(e & w1 & rows & w2 & _ & _ & R')
                              | (e1 & w1 & e2 & w2 & _ & _ & R')]];
    rewrite R' in R; inversion R; subst; clear R.
  - apply Forall_map, Forall_forall. intros row _. apply normalise_row_unit.
  - apply Forall_map, Forall_forall. intros row _.
    exists text_fallback_score. split; [reflexivity|]. split; discriminate.
  - unfold sample_data. apply Forall_map, Forall_forall. intros i Hi.
    exists (sample_score i). split; [reflexivity|].
    apply sample_score_unit, (sample_range limit), Hi.
Qed.

Lemma semantic_unit (query : string) (threshold : Q) (s : St B) papers s' :
  _semantic_search_sync B query threshold s = (Ok papers, s') ->
  Forall unit_score papers.
Proof.
  intro R.
  destruct (semantic_run B query threshold s)
    as [(rows & w & _ & R') | (e & w & results & s1 & _ & P & R')];
    rewrite R' in R; inversion R; subst; clear R.
  - apply filter_map_Forall. intros row p. unfold semantic_row.
    destruct (Qle_bool threshold (relevance_of_distance (distance_of row)));
      [|discriminate].
    intro H. inversion H. apply normalise_row_unit.
  - apply Forall_forall. intros p Hin. apply filter_In in Hin.
    pose proof (plain_unit _ _ _ _ _ P) as U. rewrite Forall_forall in U.
    apply U, Hin.
Qed.

Lemma hybrid_unit (query : string) (mf : option Filters) (s : St B) papers s' :
  _hybrid_search_sync B query mf s = (Ok papers, s') ->
  Forall unit_score papers.
Proof.
  unfold _hybrid_search_sync, try_except.
  destruct (hybrid_primary B query mf s) as [[ps | e] s1] eqn:P1.
  - intro R. inversion R; subst. revert P1.
    unfold hybrid_primary, bind, lift, kb_fetch.
    destruct (kb_exec B (hybrid_kb_query query) (world s)) as [[rows | e] w];
      [|discriminate].
    intro H. inversion H as [[Hc Hs]]. apply collect_inv in Hc.
    eapply Forall_impl; [|exact Hc].
    intros p (row & _ & Hp). apply hybrid_row_shape in Hp. subst p.
    apply normalise_row_unit.
  - destruct (hybrid_secondary B query mf s1) as [[ps | e'] s2] eqn:P2.
    + intro R. inversion R; subst. revert P2.
      unfold hybrid_secondary, bind, ret, duck_fetch.
      destruct (duck_exec B (hybrid_duck_query query mf) (world s1))
        as [[rows | e'] w]; [|discriminate].
      intro H. inversion H. apply Forall_map, Forall_forall. intros row _.
      exists hybrid_fallback_score. split; [reflexivity|]. split; discriminate.
    + unfold hybrid_tertiary, bind.
      destruct (_query_papers_sync B query 50 s2) as [[results | e''] s3] eqn:P3;
        [|discriminate].
      pose proof (plain_unit _ _ _ _ _ P3) as U.
      destruct (active_filters mf) as [f|].
      * unfold lift. intro R. inversion R as [[Hc Hs]]. apply collect_inv in Hc.
        rewrite Forall_forall in U. eapply Forall_impl; [|exact Hc].
        intros p (result & Hin & Hp). apply post_filter_shape in Hp. subst p.
        apply U, Hin.
      * unfold ret. intro R. inversion R; subst. exact U.
Qed.

(** Every dictionary returned by plain, threshold or hybrid search carries
    a relevance score, and that score lies between 0 and 1, whichever tier
    produced it. *)
Theorem search_scores_in_unit_interval :
  forall (query : string) (s : St B) (papers : list Paper) (s' : St B),
    (forall limit,
        _query_papers_sync B query limit s = (Ok papers, s') ->
        Forall unit_score papers) /\
    (forall threshold,
        _semantic_search_sync B query threshold s = (Ok papers, s') ->
        Forall unit_score papers) /\
    (forall mf,
        _hybrid_search_sync B query mf s = (Ok papers, s') ->
        Forall unit_score papers).
Proof.
  intros query s papers s'. split; [|split].
  - intro limit. apply plain_unit.
  - intro threshold. apply semantic_unit.
  - intro mf. apply hybrid_unit.
Qed.

(** With backends that honour [LIMIT], the synchronous wrapper returns at
    most [limit] dictionaries for every non-negative [limit]; with limit 0
    it returns the empty list. *)
Theorem query_knowledge_base_respects_limit :
  honours_limit B ->
  forall (query : string) (limit : Z) (s : St B),
    0 <= limit ->
    exists papers s',
      query_knowledge_base B query limit s = (Ok papers, s') /\
      Z.of_nat (length papers) <= limit /\
      (limit = 0 -> papers = []).
Proof.
  intros HL query limit s Hpos. unfold query_knowledge_base.
  destruct (plain_returns B query limit s) as (papers & s' & R).
  exists papers, s'. split; [exact R|].
  pose proof (plain_bounded B query limit s papers s' HL Hpos R) as Hlen.
  split; [lia|].
  intros ->. destruct papers; [reflexivity | simpl in Hlen; lia].
Qed.

End Scores.

(** ** The threshold search as a filter *)

Lemma semantic_loop_is_filter (threshold : Q) (rows : list KBRow) :
  filter_map (semantic_row threshold) rows
  = filter (fun p => Qle_bool threshold (score_or_zero p)) (map normalise_row rows).
Proof.
  induction rows as [|row rest IH]; [reflexivity|].
  cbn [filter_map map filter]. unfold semantic_row at 1.
  change (score_or_zero (normalise_row row))
    with (relevance_of_distance (distance_of row)).
  destruct (Qle_bool threshold (relevance_of_distance (distance_of row)));
    rewrite IH; reflexivity.
Qed.

Lemma filter_all {A} (f : A -> bool) (l : list A) :
  (forall x, In x l -> f x = true) -> filter f l = l.
Proof.
  induction l as [|x r IH]; intro H; [reflexivity|]. simpl.
  rewrite (H x (or_introl eq_refl)), IH; [reflexivity|].
  intros y Hy. apply H. right. exact Hy.
Qed.

Lemma filter_none {A} (f : A -> bool) (l : list A) :
  (forall x, In x l -> f x = false) -> filter f l = [].
Proof.
  induction l as [|x r IH]; intro H; [reflexivity|]. simpl.
  rewrite (H x (or_introl eq_refl)). apply IH.
  intros y Hy. apply H. right. exact Hy.
Qed.

Section Threshold.

Variable B : Backend.

(** The candidates of a threshold search and the list it returns. *)
Lemma semantic_as_filter (query : string) (threshold : Q) (s : St B) :
  exists candidates s',
    _semantic_search_sync B query threshold s
    = (Ok (filter (fun p => Qle_bool threshold (score_or_zero p)) candidates), s') /\
    Forall unit_score candidates /\
    ((exists rows w,
         kb_exec B (semantic_kb_query query threshold) (world s) = (Ok rows, w) /\
         candidates = map normalise_row rows) \/
     (exists e w,
         kb_exec B (semantic_kb_query query threshold) (world s) = (Raise e, w) /\
         _query_papers_sync B query 50
           (mkSt w (log s ++ [CallKB (semantic_kb_query query threshold)]))
         = (Ok candidates, s'))).
Proof.
  destruct (semantic_run B query threshold s)
    as [(rows & w & K & R) | (e & w & results & s' & K & P & R)].
  - exists (map normalise_row rows). eexists.
    rewrite R, semantic_loop_is_filter. split; [reflexivity|]. split.
    + apply Forall_map, Forall_forall. intros row _. apply normalise_row_unit.
    + left. eauto.
  - exists results, s'. rewrite R. split; [reflexivity|]. split.
    + apply (plain_unit B _ _ _ _ _ P).
    + right. eauto.
Qed.

(** The threshold search returns exactly the candidates of the winning
    tier whose relevance reaches the threshold, in the tier's order: the
    normalised rows when the knowledge base answers, the result of plain
    search with limit 50 otherwise.  Both paths apply the same test. *)
Theorem semantic_search_is_threshold_filter :
  forall (query : string) (threshold : Q) (s : St B),
    exists candidates s',
      semantic_search B query threshold s
      = (Ok (filter (fun p => Qle_bool threshold (score_or_zero p)) candidates), s') /\
      ((exists rows w,
           kb_exec B (semantic_kb_query query threshold) (world s) = (Ok rows, w) /\
           candidates = map normalise_row rows) \/
       (exists e w,
           kb_exec B (semantic_kb_query query threshold) (world s) = (Raise e, w) /\
           _query_papers_sync B query 50
             (mkSt w (log s ++ [CallKB (semantic_kb_query query threshold)]))
           = (Ok candidates, s'))).
Proof.
  intros query threshold s. unfold semantic_search.
  destruct (semantic_as_filter query threshold s) as (c & s' & R & _ & H).
  exists c, s'. split; assumption.
Qed.

(** The two ends of the threshold range.  A threshold of 0 or below
    discards nothing: when the knowledge base answers, every row comes
    back.  A threshold above 1 discards everything: the result is the
    empty list in every state of the backends. *)
Theorem semantic_threshold_extremes :
  forall (query : string) (threshold : Q) (s : St B),
    ((threshold <= 0)%Q ->
     forall rows w,
       kb_exec B (semantic_kb_query query threshold) (world s) = (Ok rows, w) ->
       fst (_semantic_search_sync B query threshold s) = Ok (map normalise_row rows)) /\
    ((1 < threshold)%Q ->
     fst (_semantic_search_sync B query threshold s) = Ok []).
Proof.
  intros query threshold s. split.
  - intros Hlow rows w K.
    destruct (semantic_run B query threshold s)
      as [(rows' & w' & K' & R) | (e & w' & results & s' & K' & _ & _)];
      [|congruence].
    rewrite K in K'. inversion K'; subst. rewrite R. cbn [fst].
    rewrite semantic_loop_is_filter, filter_all; [reflexivity|].
    intros p Hp. apply in_map_iff in Hp. destruct Hp as (row & <- & _).
    apply Qle_bool_iff.
    change (score_or_zero (normalise_row row))
      with (relevance_of_distance (distance_of row)).
    pose proof (relevance_bounds (distance_of row)). lra.
  - intro Hhigh.
    destruct (semantic_as_filter query threshold s) as (c & s' & R & U & _).
    rewrite R. cbn [fst]. rewrite filter_none; [reflexivity|].
    intros p Hp. rewrite Forall_forall in U.
    destruct (U p Hp) as (x & Hx & _ & Hx1).
    unfold score_or_zero. rewrite Hx.
    destruct (Qle_bool threshold x) eqn:E; [|reflexivity].
    apply Qle_bool_iff in E. lra.
Qed.

End Threshold.

Lemma semantic_threshold_extremes_witness :
  fst (_semantic_search_sync (kb_only [dated_2017; undated]) "transformers" 0
         (start _ tt))
    = Ok [normalise_row dated_2017; normalise_row undated] /\
  fst (_semantic_search_sync (kb_only [dated_2017; undated]) "transformers" (11 # 10)
         (start _ tt))
    = Ok [].
Proof.
  split.
  - apply (proj1 (semantic_threshold_extremes (kb_only [dated_2017; undated])
                    "transformers" 0 (start _ tt))
             ltac:(discriminate) [dated_2017; undated] tt).
    reflexivity.
  - apply (proj2 (semantic_threshold_extremes (kb_only [dated_2017; undated])
                    "transformers" (11 # 10) (start _ tt))).
    reflexivity.
Defined.

(** ** What the in-memory filters of hybrid search guarantee *)



Lemma post_filter_sound (f : Filters) (result p : Paper) :
  post_filter f result = Ok (Some p) ->
  p = result /\
  substring_ok (f_authors f) (authors p) = true /\
  (forall yf, f_year f = Some yf -> passes_year yf (published_date p)).
Proof.
  intro H. pose proof (post_filter_shape _ _ _ H) as ->.
  split; [reflexivity|]. revert H. unfold post_filter, passes_year.
  destruct (substring_ok (f_authors f) (authors result)) eqn:A.
  - destruct (f_year f) as [year_filter|]; [|intros _; split; [reflexivity|discriminate]].
    destruct (date_truthy (published_date result)) eqn:T.
    + destruct (pub_year_of (published_date result)) as [y|e] eqn:Y; cbn;
        [|discriminate].
      destruct (negb (y <? year_filter)) eqn:N; [|discriminate].
      intros _. split; [reflexivity|].
      intros yf Hy. inversion Hy; subst yf. right. exists y.
      split; [reflexivity|]. apply negb_true_iff, Z.ltb_ge in N. exact N.
    + intros _. split; [reflexivity|]. intros yf _. left. reflexivity.
  - destruct (f_year f); cbn; discriminate.
Qed.

Lemma collect_all {R A} (body : R -> Res (option A)) (g : R -> A) (rows : list R) :
  (forall row, body row = Ok (Some (g row))) ->
  collect body rows = Ok (map g rows).
Proof.
  intro H. induction rows as [|row rest IH]; [reflexivity|].
  simpl. rewrite H, IH. reflexivity.
Qed.

Section HybridFilters.

Variable B : Backend.


(** The last fallback of hybrid search returns dictionaries of the plain
    search it ran (limit 50), and each of them satisfies the authors
    filter when present and, when a minimum year is present, has no date
    or a year at least that minimum. *)
Theorem hybrid_last_fallback_filters_hold :
  forall (query : string) (f : Filters) (s : St B) papers s',
    hybrid_tertiary B query (Some f) s = (Ok papers, s') ->
    exists results,
      _query_papers_sync B query 50 s = (Ok results, s') /\
      incl papers results /\
      Forall (fun p =>
                substring_ok (f_authors f) (authors p) = true /\
                (forall yf, f_year f = Some yf -> passes_year yf (published_date p)))
             papers.
Proof.
  intros query f s papers s'. unfold hybrid_tertiary, bind.
  destruct (_query_papers_sync B query 50 s) as [[results | e] s1] eqn:P;
    [|discriminate].
  destruct (active_filters (Some f)) as [g|] eqn:Hact.
  - apply active_filters_inv in Hact. inversion Hact; subst g.
    unfold lift. intro H. inversion H as [[Hc Hs]]. subst s1.
    exists results. split; [reflexivity|].
    apply collect_inv in Hc. rewrite Forall_forall in Hc. split.
    + intros p Hp. destruct (Hc p Hp) as (result & Hin & Hpf).
      apply post_filter_shape in Hpf. subst p. exact Hin.
    + apply Forall_forall. intros p Hp.
      destruct (Hc p Hp) as (result & _ & Hpf).
      apply post_filter_sound in Hpf. tauto.
  - unfold ret. intro H. inversion H; subst.
    exists papers. split; [reflexivity|]. split; [apply incl_refl|].
    unfold active_filters in Hact.
    destruct (f_authors f), (f_year f), (f_categories f); try discriminate.
    apply Forall_forall. intros p _. split; [reflexivity | discriminate].
Qed.

(** Without filters ([None], or a dictionary with none of the three keys)
    hybrid search filters nothing: when the knowledge base answers, all
    its rows come back normalised, and the last fallback is plain search
    with limit 50, unchanged. *)
Theorem hybrid_without_filters :
  forall (query : string) (mf : option Filters) (s : St B),
    active_filters mf = None ->
    (forall rows w,
        kb_exec B (hybrid_kb_query query) (world s) = (Ok rows, w) ->
        fst (hybrid_search B query mf s) = Ok (map normalise_row rows)) /\
    hybrid_tertiary B query mf s = _query_papers_sync B query 50 s.
Proof.
  intros query mf s Hact. split.
  - intros rows w K.
    unfold hybrid_search, _hybrid_search_sync, try_except, hybrid_primary,
      bind, lift, kb_fetch.
    rewrite K.
    rewrite (collect_all (hybrid_row mf) normalise_row).
    + reflexivity.
    + intro row. unfold hybrid_row. rewrite Hact. reflexivity.
  - unfold hybrid_tertiary, bind. rewrite Hact.
    destruct (_query_papers_sync B query 50 s) as [[results | e] s1];
      reflexivity.
Qed.

End HybridFilters.

(** ** The sample batch *)

Lemma firstn_seq_min (n a len : nat) : firstn n (seq a len) = seq a (Nat.min n len).
Proof.
  revert a len. induction n as [|n IH]; intros a [|len]; try reflexivity.
  simpl. rewrite IH. reflexivity.
Qed.

Lemma firstn_incl {A} (n : nat) (l : list A) (x : A) : In x (firstn n l) -> In x l.
Proof.
  revert l. induction n as [|n IH]; intros [|y r]; simpl; try tauto.
  intros [H | H]; [left; exact H | right; apply IH, H].
Qed.

Lemma NoDup_firstn_keep {A} (n : nat) (l : list A) : NoDup l -> NoDup (firstn n l).
Proof.
  revert l. induction n as [|n IH]; intros [|y r] H; simpl; try constructor.
  - inversion H; subst. intro Hin. apply firstn_incl in Hin. contradiction.
  - inversion H; subst. apply IH. assumption.
Qed.

Lemma sample_data_prefix (query : string) (limit : Z) :
  sample_data query limit
  = firstn (Z.to_nat (Z.min limit 5)) (sample_data query 5).
Proof.
  unfold sample_data, py_range.
  rewrite !firstn_map. change (Z.to_nat (Z.min (5 + 1) 6 - 1)) with 5%nat.
  rewrite firstn_seq_min. do 3 f_equal. lia.
Qed.

(** For every limit the sample batch is the beginning of the five-element
    batch: asking for fewer results only cuts the list, it never changes
    or reorders a record.  The identifiers within a batch are pairwise
    distinct. *)
Theorem sample_batch_is_prefix :
  forall (query : string) (limit : Z),
    sample_data query limit
    = firstn (Z.to_nat (Z.min limit 5)) (sample_data query 5) /\
    NoDup (map entry_id (sample_data query limit)).
Proof.
  intros query limit. split; [apply sample_data_prefix|].
  rewrite sample_data_prefix, <- firstn_map.
  apply NoDup_firstn_keep.
  change (NoDup ["arxiv-sample-1"; "arxiv-sample-2"; "arxiv-sample-3";
                 "arxiv-sample-4"; "arxiv-sample-5"]).
  repeat (constructor; [cbn; intuition discriminate|]). constructor.
Qed.

Section LookupOfSamples.

Variable B : Backend.

(** The identifiers handed out by the sample tier can be looked up while
    the store is still failing: the point lookup then answers with a
    dictionary whose [entry_id] is the identifier asked for. *)
Theorem sample_ids_can_be_looked_up :
  forall (query : string) (limit : Z) (p : Paper) (s : St B) e w,
    In p (sample_data query limit) ->
    duck_exec B (lookup_query (entry_id p)) (world s) = (Raise e, w) ->
    exists found s',
      get_paper_by_id B (entry_id p) s = (Ok (Some found), s') /\
      entry_id found = entry_id p.
Proof.
  intros query limit p s e w Hin D.
  unfold sample_data in Hin. apply in_map_iff in Hin.
  destruct Hin as (i & <- & _).
  unfold get_paper_by_id, _get_paper_by_id_sync, try_except, lookup_store,
    bind, ret, duck_fetch.
  rewrite D. cbn [entry_id sample_paper].
  change (Str.startswith ("arxiv-sample-" ++ Str.of_int i) "arxiv-") with true.
  cbn iota. do 2 eexists. split; reflexivity.
Qed.

End LookupOfSamples.

(** * Properties of the HTTP layer *)

(** ** Blank input *)

Lemma lstrip_empty_iff (s : string) :
  PyInt.lstrip s = EmptyString <-> all_space s = true.
Proof.
  unfold all_space. induction s as [|c r IH]; [simpl; tauto|].
  cbn [PyInt.lstrip list_ascii_of_string forallb].
  destruct (PyInt.is_space c); cbn [andb]; [exact IH|].
  split; discriminate.
Qed.

Lemma lstrip_head (s : string) (c : ascii) (r : string) :
  PyInt.lstrip s = String c r -> PyInt.is_space c = false.
Proof.
  induction s as [|c' r' IH]; [discriminate|].
  cbn [PyInt.lstrip]. destruct (PyInt.is_space c') eqn:E; [exact IH|].
  intro H. inversion H; subst. exact E.
Qed.

Lemma rstrip_keeps_head (c : ascii) (r : string) :
  PyInt.is_space c = false -> PyInt.rstrip (String c r) <> EmptyString.
Proof.
  intro E. cbn [PyInt.rstrip]. rewrite E.
  destruct (PyInt.rstrip r); discriminate.
Qed.

(** A text is rejected as empty exactly when it is made of white space. *)
Lemma blank_iff_all_space (s : string) : blank s = true <-> all_space s = true.
Proof.
  unfold blank, py_strip. rewrite <- lstrip_empty_iff.
  destruct s as [|c r]; [simpl; tauto|].
  cbn [Str.truthy negb orb].
  destruct (PyInt.lstrip (String c r)) as [|c' r'] eqn:L.
  - simpl. tauto.
  - pose proof (rstrip_keeps_head c' r' (lstrip_head _ _ _ L)) as N.
    destruct (PyInt.rstrip (String c' r')); [contradiction|].
    simpl. split; discriminate.
Qed.

(** ** Which exceptions reach an endpoint *)

Lemma collect_raise {R A} (body : R -> Res (option A)) (rows : list R) (e : Exn) :
  collect body rows = Raise e -> exists row, In row rows /\ body row = Raise e.
Proof.
  induction rows as [|row rest IH]; simpl; [discriminate|].
  destruct (body row) as [o|e'] eqn:Hb; simpl.
  - destruct (collect body rest) as [acc|e'']; simpl; [discriminate|].
    intro H. inversion H; subst.
    destruct (IH eq_refl) as (r & Hin & Hr). exists r. auto.
  - intro H. inversion H; subst. exists row. auto.
Qed.

Lemma year_prefix_raise (d : string) (e : Exn) :
  year_prefix d = Raise e -> exists msg, e = ValueError msg.
Proof.
  unfold year_prefix. destruct (PyInt.parse (Str.take 4 d)); [discriminate|].
  intro H. inversion H. eauto.
Qed.

Lemma post_filter_raise (f : Filters) (result : Paper) (e : Exn) :
  post_filter f result = Raise e -> exists msg, e = ValueError msg.
Proof.
  unfold post_filter.
  destruct (f_year f) as [yf|]; [|simpl; discriminate].
  destruct (substring_ok (f_authors f) (authors result)); [|simpl; discriminate].
  destruct (date_truthy (published_date result)); [|simpl; discriminate].
  destruct (pub_year_of (published_date result)) as [y|e'] eqn:Y; simpl.
  - destruct (negb (y <? yf)); discriminate.
  - intro H. inversion H; subst. revert Y. unfold pub_year_of.
    destruct (published_date result) as [[d| |]|]; try discriminate.
    apply year_prefix_raise.
Qed.

Lemma traverse_Forall2 {A C} (f : A -> Res C) (l : list A) (rs : list C) :
  traverse f l = Ok rs -> Forall2 (fun x y => f x = Ok y) l rs.
Proof.
  revert rs. induction l as [|x r IH]; simpl; intros rs H.
  - inversion H. constructor.
  - destruct (f x) as [y|e] eqn:Hx; [|discriminate]. simpl in H.
    destruct (traverse f r) as [ys|e]; [|discriminate]. simpl in H.
    inversion H; subst. constructor; [exact Hx | apply IH; reflexivity].
Qed.

Lemma traverse_raise {A C} (f : A -> Res C) (l : list A) (e : Exn) :
  traverse f l = Raise e -> exists x, In x l /\ f x = Raise e.
Proof.
  induction l as [|x r IH]; simpl; [discriminate|].
  destruct (f x) as [y|e'] eqn:Hx; simpl.
  - destruct (traverse f r) as [ys|e'']; simpl; [discriminate|].
    intro H. inversion H; subst.
    destruct (IH eq_refl) as (z & Hin & Hz). exists z. auto.
  - intro H. inversion H; subst. exists x. auto.
Qed.

Lemma slice_upto_nonneg {A} (n : Z) (l : list A) :
  0 <= n ->
  slice_upto n l = firstn (Z.to_nat n) l /\
  Z.of_nat (length (slice_upto n l)) <= n.
Proof.
  intro H. unfold slice_upto.
  destruct (0 <=? n) eqn:E; [|apply Z.leb_gt in E; lia].
  split; [reflexivity|].
  pose proof (firstn_le_length (Z.to_nat n) l). lia.
Qed.

Section RouteProperties.

Variable B : Backend.
Variable coerce_date : DateVal -> string + PyDate.

Ltac run_endpoint :=
  unfold search_papers, semantic_search_papers, hybrid_search_papers,
    get_paper_by_id_endpoint, endpoint, api_raise.

Lemma hybrid_raises_value_error (query : string) (mf : option Filters)
      (s : St B) (e : Exn) (s' : St B) :
  _hybrid_search_sync B query mf s = (Raise e, s') -> exists msg, e = ValueError msg.
Proof.
  unfold _hybrid_search_sync, try_except.
  destruct (hybrid_primary B query mf s) as [[ps | e1] s1]; [discriminate|].
  destruct (hybrid_secondary B query mf s1) as [[ps | e2] s2]; [discriminate|].
  unfold hybrid_tertiary, bind.
  destruct (plain_returns B query 50 s2) as (results & s3 & R). rewrite R.
  destruct (active_filters mf) as [f|]; [|discriminate].
  unfold lift. intro H. inversion H as [[Hc Hs]].
  apply collect_raise in Hc. destruct Hc as (result & _ & Hr).
  apply post_filter_raise in Hr. exact Hr.
Qed.

Lemma paper_response_ok (score : Paper -> option Q) (p : Paper) (r : PaperResponse) :
  paper_response coerce_date score p = Ok r ->
  mirrors p r /\ pr_relevance_score r = score p.
Proof.
  unfold paper_response, mirrors.
  destruct (published_date p) as [d|].
  - destruct (coerce_date d); [discriminate|].
    intro H. inversion H. cbn. repeat split.
  - intro H. inversion H. cbn. repeat split.
Qed.

Lemma paper_response_raise (score : Paper -> option Q) (p : Paper) (e : Exn) :
  paper_response coerce_date score p = Raise e -> exists msg, e = ValueError msg.
Proof.
  unfold paper_response.
  destruct (published_date p) as [d|]; [|discriminate].
  destruct (coerce_date d); [|discriminate].
  intro H. inversion H. eauto.
Qed.

(** The two ways the building of a response ends. *)
Lemma search_response_cases (text : string) (results : list Paper) (s : St B) :
  (exists papers,
      traverse (paper_response coerce_date relevance_score) results = Ok papers /\
      search_response B coerce_date text results s
      = (Sent (mkSearchResponse text papers (Z.of_nat (length papers))), s)) \/
  (exists msg,
      search_response B coerce_date text results s
      = (Failed (Unhandled (ValueError msg)), s)).
Proof.
  unfold search_response, api_bind, api_pure, api_ret.
  destruct (traverse (paper_response coerce_date relevance_score) results)
    as [papers | e] eqn:T.
  - left. exists papers. auto.
  - right. apply traverse_raise in T. destruct T as (p & _ & Hp).
    apply paper_response_raise in Hp. destruct Hp as [msg ->]. eauto.
Qed.

Lemma endpoint_sent {A} (invalid failed : string) (body : Api B A)
      (s : St B) (a : A) (s' : St B) :
  endpoint B invalid failed body s = (Sent a, s') -> body s = (Sent a, s').
Proof.
  unfold endpoint.
  destruct (body s) as [[a' | [c d | [d | d]]] s1]; intro H; inversion H;
    reflexivity.
Qed.

Lemma respond_sent (m : M B (list Paper)) (text : string)
      (pick : list Paper -> list Paper) (s : St B) resp s' :
  api_bind B (await B m)
    (fun results => search_response B coerce_date text (pick results)) s
  = (Sent resp, s') ->
  exists results,
    m s = (Ok results, s') /\
    traverse (paper_response coerce_date relevance_score) (pick results)
    = Ok (sr_results resp) /\
    sr_query resp = text /\
    sr_total_results resp = Z.of_nat (length (sr_results resp)).
Proof.
  unfold api_bind, await.
  destruct (m s) as [[results | e] s1]; [|discriminate].
  destruct (search_response_cases text (pick results) s1)
    as [(papers & T & R) | (msg & R)]; rewrite R; intro H; inversion H; subst.
  exists results. cbn. auto.
Qed.

Lemma mirrored (score : Paper -> option Q) (l : list Paper) (rs : list PaperResponse) :
  traverse (paper_response coerce_date score) l = Ok rs ->
  Forall2 (fun p r => mirrors p r /\ pr_relevance_score r = score p) l rs.
Proof.
  intro T. apply traverse_Forall2 in T.
  induction T as [|p r l rs H _ IH]; constructor; [|exact IH].
  apply (paper_response_ok score p r H).
Qed.

(** A query or identifier made of white space only (or empty) is answered
    with status 400 by all four endpoints, and the state of the backends
    and the call log are left as they were: no backend is asked. *)
Theorem blank_input_is_rejected_before_any_call :
  forall (text : string) (s : St B),
    all_space text = true ->
    (forall limit,
        search_papers B coerce_date (mkSearchRequest text limit) s
        = (Failed (HTTPException 400 "Query cannot be empty"), s)) /\
    (forall threshold,
        semantic_search_papers B coerce_date (mkSemanticSearchRequest text threshold) s
        = (Failed (HTTPException 400 "Query cannot be empty"), s)) /\
    (forall mf limit,
        hybrid_search_papers B coerce_date (mkHybridSearchRequest text mf limit) s
        = (Failed (HTTPException 400 "Query cannot be empty"), s)) /\
    get_paper_by_id_endpoint B coerce_date text s
    = (Failed (HTTPException 400 "Entry ID cannot be empty"), s).
Proof.
  intros text s Hs. apply blank_iff_all_space in Hs.
  repeat split; intros; run_endpoint; cbn [rq_query sq_query hq_query];
    rewrite Hs; reflexivity.
Qed.

Lemma lookup_absent_total (entry_id : string) (s : St B) (e : Exn) (s' : St B) :
  _get_paper_by_id_sync B (py_strip entry_id) s = (Raise e, s') -> False.
Proof.
  unfold _get_paper_by_id_sync, try_except, lookup_store, bind, ret, duck_fetch.
  destruct (duck_exec B (lookup_query (py_strip entry_id)) (world s))
    as [[rows | e'] w].
  - discriminate.
  - destruct (Str.startswith (py_strip entry_id) "arxiv-"); discriminate.
Qed.

(** A successful answer of the search endpoint lists exactly the
    dictionaries plain search returned, in order, with their identifiers,
    texts and scores, and [total_results] counts them; with backends that
    honour [LIMIT] and a non-negative limit that count is at most the
    limit. *)
Theorem search_endpoint_mirrors_results :
  forall (request : SearchRequest) (s : St B) resp s',
    search_papers B coerce_date request s = (Sent resp, s') ->
    exists results,
      query_academic_papers B (rq_query request) (rq_limit request) s
      = (Ok results, s') /\
      Forall2 (fun p r => mirrors p r /\ pr_relevance_score r = relevance_score p)
              results (sr_results resp) /\
      sr_query resp = rq_query request /\
      sr_total_results resp = Z.of_nat (length results) /\
      (honours_limit B -> 0 <= rq_limit request ->
       sr_total_results resp <= rq_limit request).
Proof.
  intros request s resp s' H.
  unfold search_papers in H. apply endpoint_sent in H.
  destruct (blank (rq_query request)); [discriminate|].
  apply (respond_sent _ _ (fun l => l)) in H.
  destruct H as (results & R & T & Hq & Ht).
  exists results. split; [exact R|].
  pose proof (mirrored _ _ _ T) as M2.
  pose proof (Forall2_length M2) as L.
  split; [exact M2|]. split; [exact Hq|]. split; [lia|].
  intros HL Hpos.
  pose proof (plain_bounded B _ _ _ _ _ HL Hpos R). lia.
Qed.

(** A successful answer of the hybrid endpoint lists the slice
    [results[:limit]] of what hybrid search returned; for a non-negative
    limit these are its first [limit] results, so [total_results] never
    exceeds the limit although hybrid search itself takes no limit. *)
Theorem hybrid_endpoint_truncates_to_limit :
  forall (request : HybridSearchRequest) (s : St B) resp s',
    hybrid_search_papers B coerce_date request s = (Sent resp, s') ->
    exists results,
      hybrid_search B (hq_query request) (hq_metadata_filters request) s
      = (Ok results, s') /\
      Forall2 (fun p r => mirrors p r /\ pr_relevance_score r = relevance_score p)
              (slice_upto (hq_limit request) results) (sr_results resp) /\
      sr_total_results resp = Z.of_nat (length (sr_results resp)) /\
      (0 <= hq_limit request ->
       slice_upto (hq_limit request) results
       = firstn (Z.to_nat (hq_limit request)) results /\
       sr_total_results resp <= hq_limit request).
Proof.
  intros request s resp s' H.
  unfold hybrid_search_papers in H. apply endpoint_sent in H.
  destruct (blank (hq_query request)); [discriminate|].
  apply (respond_sent _ _ (slice_upto (hq_limit request))) in H.
  destruct H as (results & R & T & Hq & Ht).
  exists results. split; [exact R|].
  pose proof (mirrored _ _ _ T) as M2.
  pose proof (Forall2_length M2) as L.
  split; [exact M2|]. split; [exact Ht|].
  intro Hpos.
  destruct (slice_upto_nonneg (hq_limit request) results Hpos) as [E Hle].
  split; [exact E | lia].
Qed.

Lemma Forall2_transfer {A C} (R : A -> C -> Prop) (P : A -> Prop) (Q : C -> Prop)
      (l : list A) (rs : list C) :
  Forall2 R l rs -> Forall P l -> (forall p r, R p r -> P p -> Q r) -> Forall Q rs.
Proof.
  intros F2 FP H. induction F2 as [|p r l rs Hr _ IH]; constructor.
  - inversion FP; subst. eapply H; eassumption.
  - apply IH. inversion FP; assumption.
Qed.

Lemma semantic_results_between (query : string) (threshold : Q) (s : St B)
      results s' :
  _semantic_search_sync B query threshold s = (Ok results, s') ->
  Forall (fun p => exists x, relevance_score p = Some x /\
                             (threshold <= x)%Q /\ (x <= 1)%Q) results.
Proof.
  intro R.
  destruct (semantic_as_filter B query threshold s) as (c & s1 & R' & U & _).
  rewrite R' in R. inversion R; subst. clear R.
  rewrite Forall_forall in U. apply Forall_forall. intros p Hp.
  apply filter_In in Hp. destruct Hp as [Hin Ht].
  destruct (U p Hin) as (x & Hx & _ & Hx1).
  exists x. split; [exact Hx|]. split; [|exact Hx1].
  unfold score_or_zero in Ht. rewrite Hx in Ht. apply Qle_bool_iff. exact Ht.
Qed.

(** The semantic endpoint rejects a threshold outside [[0,1]] with status
    400 before any backend is asked; when it answers, every entry of the
    response has a relevance score between the threshold and 1. *)
Theorem semantic_endpoint_checks_threshold :
  forall (request : SemanticSearchRequest) (s : St B),
    blank (sq_query request) = false ->
    (~ ((0 <= sq_threshold request)%Q /\ (sq_threshold request <= 1)%Q) ->
     semantic_search_papers B coerce_date request s
     = (Failed (HTTPException 400 "Threshold must be between 0.0 and 1.0"), s)) /\
    (forall resp s',
        semantic_search_papers B coerce_date request s = (Sent resp, s') ->
        Forall (fun r => exists x, pr_relevance_score r = Some x /\
                                   (sq_threshold request <= x)%Q /\ (x <= 1)%Q)
               (sr_results resp)).
Proof.
  intros request s Hb. split.
  - intro Hout. unfold semantic_search_papers, endpoint, api_raise.
    rewrite Hb.
    destruct (Qle_bool 0 (sq_threshold request)) eqn:E0;
      destruct (Qle_bool (sq_threshold request) 1) eqn:E1; try reflexivity.
    exfalso. apply Hout. split; apply Qle_bool_iff; assumption.
  - intros resp s' H.
    unfold semantic_search_papers in H. apply endpoint_sent in H.
    rewrite Hb in H.
    destruct (negb (Qle_bool 0 (sq_threshold request)
                    && Qle_bool (sq_threshold request) 1)); [discriminate|].
    apply (respond_sent _ _ (fun l => l)) in H.
    destruct H as (results & R & T & _ & _).
    apply mirrored in T. unfold semantic_search in R.
    apply semantic_results_between in R.
    apply (Forall2_transfer _ _ _ _ _ T R).
    intros p r [_ Hs] (x & Hx & Hb1 & Hb2).
    exists x. rewrite Hs. auto.
Qed.

(** The lookup endpoint asks DuckDB once, for the stripped identifier;
    when the lookup finds nothing it answers 404 with the text of
    [PaperNotFoundError] for the identifier as given, and a successful
    answer shows the found dictionary and carries no relevance score. *)
Theorem lookup_endpoint_not_found :
  forall (entry_id : string) (s : St B),
    blank entry_id = false ->
    log (snd (get_paper_by_id_endpoint B coerce_date entry_id s))
    = (log s ++ [CallDuck (lookup_query (py_strip entry_id))])%list /\
    (forall s',
        get_paper_by_id B (py_strip entry_id) s = (Ok None, s') ->
        get_paper_by_id_endpoint B coerce_date entry_id s
        = (Failed (HTTPException 404 (exc_str (PaperNotFoundError entry_id))), s')) /\
    (forall resp s',
        get_paper_by_id_endpoint B coerce_date entry_id s = (Sent resp, s') ->
        pr_relevance_score resp = None /\
        exists p,
          get_paper_by_id B (py_strip entry_id) s = (Ok (Some p), s') /\
          mirrors p resp).
Proof.
  intros entry_id s Hb.
  pose proof (lookup_calls B (py_strip entry_id) s) as C. unfold calls_since in C.
  unfold get_paper_by_id_endpoint, endpoint, api_bind, await, api_raise,
    api_pure, get_paper_by_id.
  rewrite Hb.
  destruct (_get_paper_by_id_sync B (py_strip entry_id) s) as [[[p|] | e] s1] eqn:L;
    cbn [snd] in C.
  - destruct (paper_response coerce_date (fun _ => None) p) as [r | e] eqn:P.
    + split; [exact C|]. split; [discriminate|].
      intros resp s' H. inversion H; subst.
      apply paper_response_ok in P. destruct P as [M S].
      split; [exact S|]. exists p. auto.
    + apply paper_response_raise in P. destruct P as [msg ->].
      split; [exact C|]. split; discriminate.
  - split; [exact C|]. split.
    + intros s' H. inversion H; subst. reflexivity.
    + discriminate.
  - destruct (lookup_absent_total entry_id s e s1 L).
Qed.

(** The search, semantic and lookup endpoints never answer with status
    500: plain search, threshold search and the lookup catch every
    exception of the backends and of the row conversion, so the only
    exception left for the endpoint's handlers is the [ValidationError] of
    a response model, a [ValueError], which is answered as 400.  The two
    search endpoints answer a response or 400; the lookup answers a
    response, 400 or 404. *)
Theorem search_semantic_lookup_never_answer_500 :
  forall (s : St B),
    (forall request,
        (exists resp, fst (search_papers B coerce_date request s) = Sent resp) \/
        (exists d, fst (search_papers B coerce_date request s)
                   = Failed (HTTPException 400 d))) /\
    (forall request,
        (exists resp, fst (semantic_search_papers B coerce_date request s) = Sent resp) \/
        (exists d, fst (semantic_search_papers B coerce_date request s)
                   = Failed (HTTPException 400 d))) /\
    (forall entry_id,
        (exists resp, fst (get_paper_by_id_endpoint B coerce_date entry_id s)
                      = Sent resp) \/
        (exists d, fst (get_paper_by_id_endpoint B coerce_date entry_id s)
                   = Failed (HTTPException 400 d)) \/
        (exists d, fst (get_paper_by_id_endpoint B coerce_date entry_id s)
                   = Failed (HTTPException 404 d))).
Proof.
  intro s. split; [|split].
  - intro request. unfold search_papers, endpoint, api_raise, api_bind, await.
    destruct (blank (rq_query request)); [right; eexists; reflexivity|].
    unfold query_academic_papers.
    destruct (plain_returns B (rq_query request) (rq_limit request) s)
      as (results & s1 & R). rewrite R.
    destruct (search_response_cases (rq_query request) results s1)
      as [(papers & _ & E) | (msg & E)]; rewrite E;
      [left | right]; eexists; reflexivity.
  - intro request.
    unfold semantic_search_papers, endpoint, api_raise, api_bind, await.
    destruct (blank (sq_query request)); [right; eexists; reflexivity|].
    destruct (negb (Qle_bool 0 (sq_threshold request)
                    && Qle_bool (sq_threshold request) 1));
      [right; eexists; reflexivity|].
    unfold semantic_search.
    destruct (semantic_returns B (sq_query request) (sq_threshold request) s)
      as (results & s1 & R). rewrite R.
    destruct (search_response_cases (sq_query request) results s1)
      as [(papers & _ & E) | (msg & E)]; rewrite E;
      [left | right]; eexists; reflexivity.
  - intro entry_id.
    unfold get_paper_by_id_endpoint, endpoint, api_raise, api_bind, await,
      api_pure, get_paper_by_id.
    destruct (blank entry_id); [right; left; eexists; reflexivity|].
    destruct (_get_paper_by_id_sync B (py_strip entry_id) s)
      as [[[p|] | e] s1] eqn:L.
    + destruct (paper_response coerce_date (fun _ => None) p) as [r | e] eqn:P.
      * left. eexists. reflexivity.
      * apply paper_response_raise in P. destruct P as [msg ->].
        right; left. eexists. reflexivity.
    + right; right. eexists. reflexivity.
    + destruct (lookup_absent_total entry_id s e s1 L).
Qed.

(** The hybrid endpoint, for filter dictionaries of the declared types and
    rows that hold text.  A [ValueError] that escapes hybrid search (the
    year conversion of its last fallback) is answered as 400 with the
    text [Invalid input: ...]; and since nothing else escapes hybrid
    search on such inputs, the endpoint answers a response or 400. *)
Theorem hybrid_endpoint_answers_400_for_value_error :
  forall (request : HybridSearchRequest) (s : St B),
    blank (hq_query request) = false ->
    (forall msg s',
        hybrid_search B (hq_query request) (hq_metadata_filters request) s
        = (Raise (ValueError msg), s') ->
        hybrid_search_papers B coerce_date request s
        = (Failed (HTTPException 400 ("Invalid input: " ++ msg)), s')) /\
    ((exists resp, fst (hybrid_search_papers B coerce_date request s) = Sent resp) \/
     (exists d, fst (hybrid_search_papers B coerce_date request s)
                = Failed (HTTPException 400 d))).
Proof.
  intros request s Hb. split.
  - intros msg s' R.
    unfold hybrid_search_papers, endpoint, api_bind, await.
    rewrite Hb, R. reflexivity.
  - unfold hybrid_search_papers, endpoint, api_raise, api_bind, await.
    rewrite Hb. unfold hybrid_search.
    destruct (_hybrid_search_sync B (hq_query request)
                (hq_metadata_filters request) s) as [[results | e] s1] eqn:R.
    + destruct (search_response_cases (hq_query request)
                  (slice_upto (hq_limit request) results) s1)
        as [(papers & _ & E) | (msg & E)]; rewrite E;
        [left | right]; eexists; reflexivity.
    + apply hybrid_raises_value_error in R. destruct R as [msg ->].
      right. eexists. reflexivity.
Qed.

End RouteProperties.

(** * The exception classes *)

Lemma prefix_append (s t : string) : String.prefix s (s ++ t) = true.
Proof.
  induction s as [|c r IH]; simpl.
  - destruct t; reflexivity.
  - destruct (ascii_dec c c); [exact IH | contradiction].
Qed.

Lemma prefix_refl (s : string) : String.prefix s s = true.
Proof.
  induction s as [|c r IH]; simpl; [reflexivity|].
  destruct (ascii_dec c c); [exact IH | contradiction].
Qed.

Lemma append_length (s t : string) :
  String.length (s ++ t) = (String.length s + String.length t)%nat.
Proof. induction s as [|c r IH]; simpl; [reflexivity | rewrite IH; reflexivity]. Qed.

(** For every exception of the hierarchy, [str(e)] starts with the
    message built by its constructor; it is the message alone exactly
    when [details] is [None] or the empty string, and otherwise the
    message, a colon and the details. *)
Theorem exception_text_law :
  forall e : CopilotError,
    String.prefix (exc_message e) (exc_str e) = true /\
    (exc_str e = exc_message e <->
     exc_details e = None \/ exc_details e = Some EmptyString) /\
    (forall d, exc_details e = Some d -> d <> EmptyString ->
               exc_str e = exc_message e ++ ": " ++ d).
Proof.
  intro e. unfold exc_str.
  destruct (exc_details e) as [d|].
  - destruct d as [|c r]; cbn [Str.truthy].
    + split; [apply prefix_refl|]. split; [tauto|].
      intros d H. inversion H. congruence.
    + split; [apply prefix_append|]. split.
      * split.
        -- intro H. apply (f_equal String.length) in H.
           rewrite !append_length in H. simpl in H. lia.
        -- intros [H | H]; discriminate.
      * intros d H _. inversion H. reflexivity.
  - split; [apply prefix_refl|]. split; [tauto|]. discriminate.
Qed.

Lemma exception_text_law_witness :
  exc_str (MindsDBConnectionError "http://localhost:47334" (Some "timed out"))
  = "Failed to connect to MindsDB at http://localhost:47334: timed out" /\
  exc_str (QueryError "Semantic" (Some EmptyString)) = "Semantic query failed".
Proof.
  split.
  - apply (proj2 (proj2 (exception_text_law
             (MindsDBConnectionError "http://localhost:47334" (Some "timed out"))))
             "timed out" eq_refl).
    discriminate.
  - apply (proj2 (proj1 (proj2 (exception_text_law
             (QueryError "Semantic" (Some EmptyString)))))).
    right. reflexivity.
Defined.

(** * Further concrete runs *)

Lemma search_scores_in_unit_interval_witness :
  Forall unit_score [normalise_row dated_2017] /\
  Forall unit_score [paper_of_duck (duck_row "1512.03385") (Some hybrid_fallback_score)] /\
  Forall unit_score (sample_data "anything" 50).
Proof.
  split; [|split].
  - apply (proj1 (search_scores_in_unit_interval (kb_only [dated_2017])
                    "transformers" (start _ tt) [normalise_row dated_2017]
                    (mkSt tt [CallKB (plain_kb_query "transformers" 10)]))
             10 eq_refl).
  - apply (proj2 (proj2 (search_scores_in_unit_interval
                           (duck_only [duck_row "1512.03385"])
                           "residual" (start _ tt)
                           [paper_of_duck (duck_row "1512.03385")
                              (Some hybrid_fallback_score)]
                           (mkSt tt [CallKB (hybrid_kb_query "residual");
                                     CallDuck (hybrid_duck_query "residual" None)])))
             None eq_refl).
  - apply (proj1 (proj2 (search_scores_in_unit_interval all_down
                           "anything" (start _ tt) (sample_data "anything" 50)
                           (mkSt tt [CallKB (semantic_kb_query "anything" (1 # 2));
                                     CallKB (plain_kb_query "anything" 50);
                                     CallDuck (plain_duck_query "anything" 50)])))
             (1 # 2)%Q eq_refl).
Defined.

Lemma query_knowledge_base_respects_limit_witness :
  exists papers s',
    query_knowledge_base (kb_only [dated_2017; undated]) "transformers" 1 (start _ tt)
    = (Ok papers, s') /\
    Z.of_nat (length papers) <= 1 /\
    (1 = 0 -> papers = []).
Proof.
  apply (query_knowledge_base_respects_limit (kb_only [dated_2017; undated])
           (kb_only_honours_limit _) "transformers" 1 (start _ tt)).
  lia.
Defined.


Lemma hybrid_last_fallback_filters_hold_witness :
  exists s',
    hybrid_tertiary all_down "anything" (Some year_2020) (start _ tt)
    = (Ok (sample_data "anything" 50), s') /\
    exists results,
      _query_papers_sync all_down "anything" 50 (start _ tt) = (Ok results, s') /\
      incl (sample_data "anything" 50) results /\
      Forall (fun p =>
                substring_ok (f_authors year_2020) (authors p) = true /\
                (forall yf, f_year year_2020 = Some yf ->
                            passes_year yf (published_date p)))
             (sample_data "anything" 50).
Proof.
  eexists. split; [reflexivity|].
  apply (hybrid_last_fallback_filters_hold all_down "anything" year_2020
           (start _ tt)).
  reflexivity.
Defined.

Lemma hybrid_without_filters_witness :
  fst (hybrid_search (kb_only [dated_2017; undated]) "transformers"
         (Some (mkFilters None None None)) (start _ tt))
    = Ok [normalise_row dated_2017; normalise_row undated] /\
  hybrid_tertiary (kb_only [dated_2017; undated]) "transformers"
    (Some (mkFilters None None None)) (start _ tt)
    = _query_papers_sync (kb_only [dated_2017; undated]) "transformers" 50 (start _ tt).
Proof.
  destruct (hybrid_without_filters (kb_only [dated_2017; undated]) "transformers"
              (Some (mkFilters None None None)) (start _ tt) eq_refl)
    as [Hfirst Hlast].
  split; [|exact Hlast].
  apply (Hfirst [dated_2017; undated] tt). reflexivity.
Defined.

Lemma sample_ids_can_be_looked_up_witness :
  exists found s',
    get_paper_by_id all_down "arxiv-sample-2" (start _ tt) = (Ok (Some found), s') /\
    entry_id found = "arxiv-sample-2".
Proof.
  apply (sample_ids_can_be_looked_up all_down "anything" 5
           (sample_paper "anything" 2) (start _ tt) unreachable tt).
  - right. left. reflexivity.
  - reflexivity.
Defined.

Lemma blank_input_is_rejected_before_any_call_witness :
  all_space "  " = true /\
  search_papers all_down demo_coerce_date (mkSearchRequest "  " 10) (start _ tt)
  = (Failed (HTTPException 400 "Query cannot be empty"), start all_down tt) /\
  get_paper_by_id_endpoint all_down demo_coerce_date "  " (start _ tt)
  = (Failed (HTTPException 400 "Entry ID cannot be empty"), start all_down tt).
Proof.
  destruct (blank_input_is_rejected_before_any_call all_down demo_coerce_date
              "  " (start _ tt) eq_refl) as (Hs & _ & _ & Hl).
  split; [reflexivity|]. split; [apply Hs | exact Hl].
Defined.

Lemma search_endpoint_mirrors_results_witness :
  exists resp s',
    search_papers (kb_only [dated_2017; undated]) demo_coerce_date
      (mkSearchRequest "transformers" 1) (start _ tt) = (Sent resp, s') /\
    exists results,
      query_academic_papers (kb_only [dated_2017; undated]) "transformers" 1
        (start _ tt) = (Ok results, s') /\
      Forall2 (fun p r => mirrors p r /\ pr_relevance_score r = relevance_score p)
              results (sr_results resp) /\
      sr_query resp = "transformers" /\
      sr_total_results resp = Z.of_nat (length results) /\
      sr_total_results resp <= 1.
Proof.
  do 2 eexists. split; [reflexivity|].
  destruct (search_endpoint_mirrors_results (kb_only [dated_2017; undated])
              demo_coerce_date (mkSearchRequest "transformers" 1) (start _ tt)
              _ _ eq_refl) as (results & R & M2 & Hq & Ht & Hl).
  exists results. repeat split; try assumption.
  apply Hl; [apply kb_only_honours_limit | cbn; lia].
Defined.

Lemma hybrid_endpoint_truncates_to_limit_witness :
  exists resp s',
    hybrid_search_papers (kb_only [dated_2017; undated]) demo_coerce_date
      (mkHybridSearchRequest "transformers" None 1) (start _ tt) = (Sent resp, s') /\
    sr_total_results resp <= 1 /\
    exists results,
      hybrid_search (kb_only [dated_2017; undated]) "transformers" None (start _ tt)
      = (Ok results, s') /\
      length results = 2%nat.
Proof.
  do 2 eexists. split; [reflexivity|].
  destruct (hybrid_endpoint_truncates_to_limit (kb_only [dated_2017; undated])
              demo_coerce_date (mkHybridSearchRequest "transformers" None 1)
              (start _ tt) _ _ eq_refl) as (results & R & _ & _ & Hl).
  split.
  - apply Hl. cbn. lia.
  - exists results. split; [exact R|].
    cbn in R. inversion R. reflexivity.
Defined.

Lemma semantic_endpoint_checks_threshold_witness :
  semantic_search_papers all_down demo_coerce_date
    (mkSemanticSearchRequest "transformers" (3 # 2)) (start _ tt)
  = (Failed (HTTPException 400 "Threshold must be between 0.0 and 1.0"),
     start all_down tt) /\
  exists resp s',
    semantic_search_papers (kb_only [dated_2017]) demo_coerce_date
      (mkSemanticSearchRequest "transformers" (7 # 10)) (start _ tt)
    = (Sent resp, s') /\
    Forall (fun r => exists x, pr_relevance_score r = Some x /\
                               (7 # 10 <= x)%Q /\ (x <= 1)%Q)
           (sr_results resp).
Proof.
  split.
  - apply (proj1 (semantic_endpoint_checks_threshold all_down demo_coerce_date
                    (mkSemanticSearchRequest "transformers" (3 # 2)) (start _ tt)
                    eq_refl)).
    cbn. intros [_ H]. apply H. reflexivity.
  - do 2 eexists. split; [reflexivity|].
    apply (proj2 (semantic_endpoint_checks_threshold (kb_only [dated_2017])
                    demo_coerce_date
                    (mkSemanticSearchRequest "transformers" (7 # 10)) (start _ tt)
                    eq_refl) _ _ eq_refl).
Defined.

Lemma lookup_endpoint_not_found_witness :
  fst (get_paper_by_id_endpoint (duck_only [duck_row "1512.03385"]) demo_coerce_date
         " does-not-exist " (start _ tt))
  = Failed (HTTPException 404 "Paper with ID ' does-not-exist ' not found") /\
  exists resp s',
    get_paper_by_id_endpoint (duck_only [duck_row "1512.03385"]) demo_coerce_date
      "1512.03385" (start _ tt) = (Sent resp, s') /\
    pr_relevance_score resp = None /\
    pr_entry_id resp = "1512.03385".
Proof.
  split.
  - destruct (lookup_endpoint_not_found (duck_only [duck_row "1512.03385"])
                demo_coerce_date " does-not-exist " (start _ tt) eq_refl)
      as (_ & H404 & _).
    rewrite (H404 (mkSt tt [CallDuck (lookup_query "does-not-exist")]) eq_refl).
    reflexivity.
  - do 2 eexists. split; [reflexivity|].
    destruct (lookup_endpoint_not_found (duck_only [duck_row "1512.03385"])
                demo_coerce_date "1512.03385" (start _ tt) eq_refl)
      as (_ & _ & Hsent).
    destruct (Hsent _ _ eq_refl) as (Hscore & p & Hp & Hm).
    split; [exact Hscore|].
    destruct Hm as (Hid & _). rewrite Hid.
    cbn in Hp. inversion Hp. reflexivity.
Defined.

Lemma hybrid_endpoint_answers_400_for_value_error_witness :
  blank "transformers" = false /\
  fst (hybrid_search_papers (kb_only [odd_date]) demo_coerce_date
         (mkHybridSearchRequest "transformers" (Some year_2020) 10) (start _ tt))
  = Failed (HTTPException 400
              "Invalid input: invalid literal for int() with base 10: 'n.d.'").
Proof.
  split; [reflexivity|].
  destruct (hybrid_endpoint_answers_400_for_value_error (kb_only [odd_date])
              demo_coerce_date
              (mkHybridSearchRequest "transformers" (Some year_2020) 10)
              (start _ tt) eq_refl) as [H400 _].
  rewrite (H400 "invalid literal for int() with base 10: 'n.d.'"
             (mkSt tt [CallKB (hybrid_kb_query "transformers");
                       CallDuck (hybrid_duck_query "transformers" (Some year_2020));
                       CallKB (plain_kb_query "transformers" 50)])
             eq_refl).
  reflexivity.
Defined.
